(** * Pollify: the polls views (polls/views.py)

    A shallow embedding of the four request handlers of the polling
    application -- [IndexView], [DetailView], [ResultsView] and [vote] --
    over an explicit database state, followed by the properties of the
    listing, the not-found rule, the vote tally and the vote percentages. *)

From Stdlib Require Import ZArith Lia SpecFloat Ascii String.
From stdpp Require Import gmap strings list fin_maps sorting.

Local Open Scope Z_scope.

(** ** Python values and exceptions *)

(** The exceptions that the handlers and the library calls they make can
    raise.  [Http404] carries the message the framework puts in it. *)
Inductive exn :=
  | Http404 (msg : string)
  | KeyError (key : string)
  | Choice_DoesNotExist   (* [Choice.DoesNotExist] *)
  | ValueError
  | FieldError
  | ZeroDivisionError
  | OverflowError.

Inductive result (A : Type) :=
  | Ok (a : A)
  | Raise (e : exn).
Arguments Ok {A} a.
Arguments Raise {A} e.

Global Instance result_ret : MRet result := λ A a, Ok a.
Global Instance result_bind : MBind result := λ A B f r,
  match r with
  | Ok a => f a
  | Raise e => Raise e
  end.
Global Instance result_fmap : FMap result := λ A B f r,
  match r with
  | Ok a => Ok (f a)
  | Raise e => Raise e
  end.

(** A Python number: an [int] of arbitrary size or a [float] (IEEE 754
    binary64, in the Standard Library's executable specification). *)
Inductive number :=
  | PyInt (z : Z)
  | PyFloat (f : spec_float).

Definition prec : Z := 53.
Definition emax : Z := 1024.

(** The exact embedding of an [int] as an (unnormalised) binary float: the
    operations below round once, from the exact integers. *)
Definition Z2SF (z : Z) : spec_float :=
  match z with
  | Z0 => S754_zero false
  | Zpos p => S754_finite false p 0
  | Zneg p => S754_finite true p 0
  end.

(** [float(z)]. *)
Definition py_float (z : Z) : spec_float := binary_normalize prec emax z 0 false.

(** [a / b] on two [int]s: the correctly rounded quotient;
    [ZeroDivisionError] when [b] is 0 and [OverflowError] when the
    quotient is too large for a float. *)
Definition py_truediv (a b : Z) : result spec_float :=
  if decide (b = 0) then Raise ZeroDivisionError
  else
    match SFdiv prec emax (Z2SF a) (Z2SF b) with
    | S754_infinity _ => Raise OverflowError
    | q => Ok q
    end.

(** [x * n] for a [float] [x] and an [int] [n]: [n] is converted first;
    a product out of range is an infinity, not an exception. *)
Definition py_float_mul_int (x : spec_float) (n : Z) : spec_float :=
  SFmul prec emax x (py_float n).

(** [x or 0] where [x] is [None] or an [int]: the right operand when the
    left one is falsy ([None] or 0). *)
Definition py_or_0 (x : option Z) : Z :=
  match x with
  | None => 0
  | Some v => if decide (v = 0) then 0 else v
  end.

(** [max(l, key=key)]: the first element with the largest key;
    [ValueError] on an empty sequence. *)
Definition py_max {A} (key : A → Z) (l : list A) : result A :=
  match l with
  | [] => Raise ValueError
  | x :: l' => Ok (foldl (λ best y, if decide (key best < key y) then y else best) x l')
  end.

(** [int(s)] for a [str] of ASCII characters: surrounding whitespace
    (tab, line feed, vertical tab, form feed, carriage return, space) is
    dropped, one sign is allowed, and the digits may be grouped by single
    underscores.  [None] stands for the [ValueError] Python raises.  The
    decimal digits and the whitespace of other scripts, and the limit
    recent versions put on the number of digits, are outside this
    function: the properties that depend on what [int] accepts are stated
    for the strings of [plain_ascii] below. *)
Definition is_space (a : ascii) : bool :=
  let n := Z.of_N (N_of_ascii a) in
  bool_decide (n = 32 ∨ 9 ≤ n ≤ 13).

Definition digit_of (a : ascii) : option Z :=
  let n := Z.of_N (N_of_ascii a) in
  if bool_decide (48 ≤ n ≤ 57) then Some (n - 48) else None.

Fixpoint lstrip (l : list ascii) : list ascii :=
  match l with
  | a :: l' => if is_space a then lstrip l' else l
  | [] => []
  end.

Definition strip (l : list ascii) : list ascii :=
  reverse (lstrip (reverse (lstrip l))).

Fixpoint parse_digits (acc : Z) (after_digit : bool) (l : list ascii) : option Z :=
  match l with
  | [] => if after_digit then Some acc else None
  | a :: l' =>
      match digit_of a with
      | Some d => parse_digits (10 * acc + d) true l'
      | None =>
          if bool_decide (a = "_"%char) && after_digit
          then parse_digits acc false l'
          else None
      end
  end.

(** A form value made only of printable ASCII characters and of the
    whitespace that [int] strips, and no longer than the number of digits
    every version of [int] accepts. *)
Definition plain_ascii (s : string) : bool :=
  forallb (λ a, let n := Z.of_N (N_of_ascii a) in
                bool_decide (32 ≤ n ≤ 126 ∨ 9 ≤ n ≤ 13))
    (list_ascii_of_string s)
  && bool_decide (String.length s ≤ 4300)%nat.

Definition py_int (s : string) : option Z :=
  match strip (list_ascii_of_string s) with
  | a :: l =>
      if bool_decide (a = "-"%char) then Z.opp <$> parse_digits 0 false l
      else if bool_decide (a = "+"%char) then parse_digits 0 false l
      else parse_digits 0 false (a :: l)
  | [] => None
  end.

(** ** Models and storage *)

(** Modelled from the spec: polls/models.py is not among the sources.  A
    Question has a text and a publication timestamp, a Choice belongs to
    one Question and has a text and a vote counter; both are keyed by a
    unique identifier, which is the key of the table here.  Timestamps are
    integers (any fixed unit), the counter is the integer the column
    holds. *)
Record QuestionRow := {
  question_text : string;
  pub_date : Z;
}.

(** Modelled from the spec: the Choice of polls/models.py, with the key of
    its Question, its text and its vote counter (default 0). *)
Record ChoiceRow := {
  question_id : Z;
  choice_text : string;
  votes : Z;
}.

(** The two tables, [Question.objects] and [Choice.objects], each keyed by
    primary key. *)
Record Database := {
  Question_objects : gmap Z QuestionRow;
  Choice_objects : gmap Z ChoiceRow;
}.

(** A model instance in memory: the primary key, the loaded fields, and
    the attributes the views attach to it. *)
Inductive attr (A : Type) :=
  | Unset
  | Attached (a : A).
Arguments Unset {A}.
Arguments Attached {A} a.

Record Choice := {
  c_pk : Z;
  c_fields : ChoiceRow;
  percentage : attr number;
}.

Record Question := {
  q_pk : Z;
  q_fields : QuestionRow;
  total_votes : attr Z;
  most_popular_choice : attr (option Choice);
}.

Definition question_of (kr : Z * QuestionRow) : Question :=
  {| q_pk := kr.1; q_fields := kr.2;
     total_votes := Unset; most_popular_choice := Unset |}.

Definition choice_of (kr : Z * ChoiceRow) : Choice :=
  {| c_pk := kr.1; c_fields := kr.2; percentage := Unset |}.

Definition set_percentage (c : Choice) (p : number) : Choice :=
  {| c_pk := c_pk c; c_fields := c_fields c; percentage := Attached p |}.

Definition set_total_votes (q : Question) (t : Z) : Question :=
  {| q_pk := q_pk q; q_fields := q_fields q;
     total_votes := Attached t; most_popular_choice := most_popular_choice q |}.

Definition set_most_popular_choice (q : Question) (c : option Choice) : Question :=
  {| q_pk := q_pk q; q_fields := q_fields q;
     total_votes := total_votes q; most_popular_choice := Attached c |}.

(** A queryset is the sub-table it selects; iterating it loads its rows
    as instances, in the order the storage returns them.  A queryset that
    has been iterated keeps the instances it loaded, so the handlers pass
    on the very instances they have attached attributes to: such a
    queryset is the list of its instances. *)
Definition iter_questions (qs : gmap Z QuestionRow) : list Question :=
  question_of <$> map_to_list qs.

Definition iter_choices (qs : gmap Z ChoiceRow) : list Choice :=
  choice_of <$> map_to_list qs.

(** [filter(pub_date__lte=now)] *)
Definition filter_pub_date_lte (now : Z) (qs : gmap Z QuestionRow) : gmap Z QuestionRow :=
  filter (λ kr, pub_date kr.2 ≤ now) qs.

(** [order_by("-pub_date")]: the instances, latest first. *)
Definition pub_date_desc (a b : Question) : Prop :=
  pub_date (q_fields b) ≤ pub_date (q_fields a).

Global Instance pub_date_desc_dec a b : Decision (pub_date_desc a b).
Proof. unfold pub_date_desc. apply _. Defined.

Definition order_by_pub_date_desc (qs : gmap Z QuestionRow) : list Question :=
  merge_sort pub_date_desc (iter_questions qs).

(** [question.choice_set]: the Choices whose foreign key is the Question. *)
Definition choice_set (db : Database) (question : Question) : gmap Z ChoiceRow :=
  filter (λ kr, question_id kr.2 = q_pk question) (Choice_objects db).

(** SQL [SUM]: null over no rows, else the sum.  The storage computes it
    in 64-bit integers and fails when a sum leaves their range; the
    properties of the pages are stated for databases whose counters keep
    every sum inside it ([db_in_range] below). *)
Definition Sum (l : list Z) : option Z :=
  match l with
  | [] => None
  | _ => Some (foldr Z.add 0 l)
  end.

Definition Coalesce (x : option Z) (d : Z) : Z := default d x.

Definition votes_of (qs : gmap Z ChoiceRow) : list Z :=
  (λ kr : Z * ChoiceRow, votes kr.2) <$> map_to_list qs.

(** [qs.count()] *)
Definition count {A} (qs : gmap Z A) : Z := Z.of_nat (size qs).

(** ** Template contexts and responses *)

Inductive value :=
  | VNone
  | VBool (b : bool)
  | VInt (z : Z)
  | VStr (s : string)
  | VQuestion (q : Question)
  | VQuestionList (l : list Question)
  | VChoiceList (l : list Choice).

(** [reverse(viewname, args=...)], kept symbolic: the URL configuration is
    outside these sources. *)
Record url := reverse_url { viewname : string; args : list Z }.

Inductive HttpResponse :=
  | TemplateResponse (template_name : string) (context : gmap string value)
  | HttpResponseRedirect (location : url).

(** [context[key]] where a Question is expected. *)
Definition context_question (context : gmap string value) (key : string) : result Question :=
  match context !! key with
  | Some (VQuestion q) => Ok q
  | _ => Raise (KeyError key)
  end.

Definition context_question_list (context : gmap string value) (key : string)
    : result (list Question) :=
  match context !! key with
  | Some (VQuestionList l) => Ok l
  | _ => Raise (KeyError key)
  end.

(** A loop over instances whose body may raise. *)
Fixpoint for_each {A B} (body : A → result B) (l : list A) : result (list B) :=
  match l with
  | [] => Ok []
  | x :: l' =>
      y ← body x;
      ys ← for_each body l';
      Ok (y :: ys)
  end.

(** ** The views *)

Module IndexView.

Definition template_name : string := "polls/index.html".
Definition context_object_name : string := "latest_question_list".

(** The last ten published questions, latest first. *)
Definition get_queryset (db : Database) (now : Z) : list Question :=
  take 10 (order_by_pub_date_desc (filter_pub_date_lte now (Question_objects db))).

(** The list view's own context: the queryset under ["object_list"] and
    under [context_object_name], no pagination.  (The entry for the view
    object itself is left out.) *)
Definition super_get_context_data (object_list : list Question) : gmap string value :=
  <[context_object_name := VQuestionList object_list]>
    (<["object_list" := VQuestionList object_list]>
      (<["is_paginated" := VBool false]>
        (<["page_obj" := VNone]> {["paginator" := VNone]}))).

Definition get_context_data (db : Database) (object_list : list Question)
    : result (gmap string value) :=
  let context := super_get_context_data object_list in
  let total_polls := count (Question_objects db) in
  let total_votes := Coalesce (Sum (votes_of (Choice_objects db))) 0 in
  latest_question_list ← context_question_list context "latest_question_list";
  let latest_question_list :=
    (λ question,
       set_total_votes question
         (Coalesce (Sum (votes_of (choice_set db question))) 0))
      <$> latest_question_list in
  (* both names are bound to the one queryset whose instances the loop
     has updated *)
  let context :=
    <[context_object_name := VQuestionList latest_question_list]>
      (<["object_list" := VQuestionList latest_question_list]> context) in
  Ok (<["total_votes" := VInt total_votes]>
        (<["total_polls" := VInt total_polls]> context)).

(** The list view's [get]: an empty list is allowed. *)
Definition get (db : Database) (now : Z) : result HttpResponse :=
  let object_list := get_queryset db now in
  context ← get_context_data db object_list;
  Ok (TemplateResponse template_name context).

End IndexView.

(** The detail view's lookup of its object: the row of the view's
    queryset with the primary key of the URL, or [Http404]. *)
Definition get_object (queryset : gmap Z QuestionRow) (pk : Z) : result Question :=
  match queryset !! pk with
  | Some r => Ok (question_of (pk, r))
  | None => Raise (Http404 "No question found matching the query")
  end.

(** The detail view's own context: the object under ["object"] and under
    the model's name.  (The entry for the view object is left out.) *)
Definition bind_object (object : Question) (context : gmap string value)
    : gmap string value :=
  <["question" := VQuestion object]> (<["object" := VQuestion object]> context).

Module DetailView.

Definition template_name : string := "polls/detail.html".

(** Excludes any questions that aren't published yet. *)
Definition get_queryset (db : Database) (now : Z) : gmap Z QuestionRow :=
  filter_pub_date_lte now (Question_objects db).

Definition get_context_data (db : Database) (object : Question)
    : result (gmap string value) :=
  let context := bind_object object ∅ in
  question ← context_question context "question";
  let total_votes := Coalesce (Sum (votes_of (choice_set db question))) 0 in
  let question := set_total_votes question total_votes in
  (* the instance is the one both names are bound to *)
  Ok (bind_object question context).

Definition get (db : Database) (now : Z) (pk : Z) : result HttpResponse :=
  object ← get_object (get_queryset db now) pk;
  context ← get_context_data db object;
  Ok (TemplateResponse template_name context).

End DetailView.

Module ResultsView.

Definition template_name : string := "polls/results.html".

(** Excludes any questions that aren't published yet. *)
Definition get_queryset (db : Database) (now : Z) : gmap Z QuestionRow :=
  filter_pub_date_lte now (Question_objects db).

(** The body of the loop over the choices. *)
Definition attach_percentage (total_votes : Z) (choice : Choice) : result Choice :=
  if decide (0 < total_votes) then
    q ← py_truediv (votes (c_fields choice)) total_votes;
    Ok (set_percentage choice (PyFloat (py_float_mul_int q 100)))
  else
    Ok (set_percentage choice (PyInt 0)).

Definition get_context_data (db : Database) (object : Question)
    : result (gmap string value) :=
  let context := bind_object object ∅ in
  question ← context_question context "question";
  let choices := choice_set db question in
  let total_votes := py_or_0 (Sum (votes_of choices)) in
  choices ← for_each (attach_percentage total_votes) (iter_choices choices);
  most_popular_choice ←
    (if bool_decide (0 < total_votes) && bool_decide (choices ≠ [])
     then Some <$> py_max (λ c, votes (c_fields c)) choices
     else Ok None);
  let question := set_total_votes question total_votes in
  let question := set_most_popular_choice question most_popular_choice in
  Ok (<["choices" := VChoiceList choices]> (bind_object question context)).

Definition get (db : Database) (now : Z) (pk : Z) : result HttpResponse :=
  object ← get_object (get_queryset db now) pk;
  context ← get_context_data db object;
  Ok (TemplateResponse template_name context).

End ResultsView.

(** *** Voting *)

(** [get_object_or_404(Question, pk=...)]: no filter on the publication
    date. *)
Definition get_object_or_404 (objects : gmap Z QuestionRow) (pk : Z) : result Question :=
  match objects !! pk with
  | Some r => Ok (question_of (pk, r))
  | None => Raise (Http404 "No Question matches the given query.")
  end.

(** [request.POST[key]] *)
Definition POST_get (POST : gmap string string) (key : string) : result string :=
  match POST !! key with
  | Some v => Ok v
  | None => Raise (KeyError key)
  end.

(** [qs.get(pk=raw)] with the value of a form field, a [str]: the lookup
    first converts the value to an integer key with [int], whose
    [ValueError] it lets through; no row with that key is
    [Choice.DoesNotExist]. *)
Definition get_pk (qs : gmap Z ChoiceRow) (raw : string) : result Choice :=
  match py_int raw with
  | None => Raise ValueError
  | Some pk =>
      match qs !! pk with
      | Some r => Ok (choice_of (pk, r))
      | None => Raise Choice_DoesNotExist
      end
  end.

(** Query expressions, evaluated by the storage on the row it updates. *)
Inductive expr :=
  | Value (z : Z)
  | F (name : string)
  | Add (a b : expr).

Fixpoint eval (row : ChoiceRow) (e : expr) : option Z :=
  match e with
  | Value z => Some z
  | F name =>
      if decide (name = "votes") then Some (votes row)
      else if decide (name = "question_id") then Some (question_id row)
      else None
  | Add a b => x ← eval row a; y ← eval row b; Some (x + y)
  end.

(** A Choice instance whose [votes] attribute has been assigned an
    expression. *)
Record ChoiceAssigned := {
  a_pk : Z;
  a_question_id : Z;
  a_choice_text : string;
  a_votes : expr;
}.

Definition set_votes (c : Choice) (e : expr) : ChoiceAssigned :=
  {| a_pk := c_pk c;
     a_question_id := question_id (c_fields c);
     a_choice_text := choice_text (c_fields c);
     a_votes := e |}.

(** [instance.save()] of an instance with a primary key: one UPDATE of
    the row with that key, every column set from the instance, an
    expression computed by the storage from the row as it is stored at
    that moment.  When no row has the key the insert that follows refuses
    the expression. *)
Definition save (db : Database) (c : ChoiceAssigned) : result Database :=
  match Choice_objects db !! a_pk c with
  | Some row =>
      match eval row (a_votes c) with
      | Some v =>
          Ok {| Question_objects := Question_objects db;
                Choice_objects :=
                  <[a_pk c := {| question_id := a_question_id c;
                                choice_text := a_choice_text c;
                                votes := v |}]> (Choice_objects db) |}
      | None => Raise FieldError
      end
  | None => Raise ValueError
  end.

(** [instance.refresh_from_db()] *)
Definition refresh_from_db (db : Database) (c : ChoiceAssigned) : result Choice :=
  match Choice_objects db !! a_pk c with
  | Some r => Ok (choice_of (a_pk c, r))
  | None => Raise Choice_DoesNotExist
  end.

(** The body of the [try]: the reads of the vote. *)
Definition vote_try (db : Database) (question : Question) (POST : gmap string string)
    : result Choice :=
  raw ← POST_get POST "choice";
  get_pk (choice_set db question) raw.

(** The [else] branch: the write of the vote, on the storage as it is
    when the write is issued. *)
Definition vote_else (db : Database) (question_id : Z) (selected_choice : Choice)
    : result HttpResponse * Database :=
  let selected_choice := set_votes selected_choice (Add (F "votes") (Value 1)) in
  match save db selected_choice with
  | Raise e => (Raise e, db)
  | Ok db' =>
      match refresh_from_db db' selected_choice with
      | Raise e => (Raise e, db')
      | Ok _ =>
          (Ok (HttpResponseRedirect (reverse_url "polls:results" [question_id])), db')
      end
  end.

(** Handle voting for a specific question.  [question_id] is the integer
    of the URL, [POST] the submitted form; the result is the response or
    the exception, and the storage afterwards. *)
Definition vote (db : Database) (question_id : Z) (POST : gmap string string)
    : result HttpResponse * Database :=
  match get_object_or_404 (Question_objects db) question_id with
  | Raise e => (Raise e, db)
  | Ok question =>
      match vote_try db question POST with
      | Raise (KeyError _) | Raise Choice_DoesNotExist =>
          (Ok (TemplateResponse "polls/detail.html"
                 (<["error_message" := VStr "You didn't select a choice."]>
                    {["question" := VQuestion question]})),
           db)
      | Raise e => (Raise e, db)
      | Ok selected_choice => vote_else db question_id selected_choice
      end
  end.

(** ** Scenarios *)

Definition Q1 : QuestionRow := {| question_text := "Q1"; pub_date := 100 |}.

Definition scenario_db (yes no : Z) : Database :=
  {| Question_objects := {[ 1 := Q1 ]};
     Choice_objects :=
       <[ 11 := {| question_id := 1; choice_text := "Yes"; votes := yes |} ]>
         {[ 12 := {| question_id := 1; choice_text := "No"; votes := no |} ]} |}.

(** A database whose only Question is not yet published at time 200. *)
Definition future_db : Database :=
  {| Question_objects := {[ 1 := {| question_text := "Q1"; pub_date := 300 |} ]};
     Choice_objects := ∅ |}.

(** What a results page shows: per choice the text, the counter and the
    percentage, then the total and the text of the most popular choice. *)
Definition shown (r : result HttpResponse)
    : option (list (string * Z * attr number) * attr Z * attr (option string)) :=
  match r with
  | Ok (TemplateResponse _ context) =>
      match context !! "choices", context !! "question" with
      | Some (VChoiceList l), Some (VQuestion q) =>
          Some ((λ c, (choice_text (c_fields c), votes (c_fields c), percentage c)) <$> l,
                total_votes q,
                match most_popular_choice q with
                | Attached o => Attached ((λ c, choice_text (c_fields c)) <$> o)
                | Unset => Unset
                end)
      | _, _ => None
      end
  | _ => None
  end.

(** ** Definitions used by the statements *)

(** The exponent function of binary64. *)
Definition fexp64 (e : Z) : Z := Z.max (e - 53) (-1074).

Definition is_infinity (x : spec_float) : bool :=
  match x with S754_infinity _ => true | _ => false end.

(** Every vote counter fits the widest integer column a storage backend
    has (64 bits, signed). *)
Definition db_storable (db : Database) : Prop :=
  map_Forall (λ _ r, - 2 ^ 63 ≤ votes r < 2 ^ 63) (Choice_objects db).

(** The sum of the absolute values of all vote counters. *)
Definition total_abs (db : Database) : Z :=
  foldr Z.add 0 ((λ kr : Z * ChoiceRow, Z.abs (votes kr.2))
                   <$> map_to_list (Choice_objects db)).

(** The counters are small enough for every sum of some of them, taken
    in any order, to stay inside the signed 64-bit range of the storage's
    integers, with room for [room] more votes. *)
Definition db_in_range_for (room : Z) (db : Database) : Prop :=
  total_abs db + room < 2 ^ 63.

Definition db_in_range (db : Database) : Prop := db_in_range_for 0 db.

(** The float 100.0: 7036874417766400 = 100 * 2^46. *)
Definition float_100 : spec_float := S754_finite false 7036874417766400 (-46).

(** The sum of the vote counters of the Choices of a Question. *)
Definition question_total (db : Database) (q : Question) : Z :=
  foldr Z.add 0 (votes_of (choice_set db q)).

(** The percentage as the specification words it: votes / total_votes
    × 100 if total_votes > 0, else 0 -- the quotient rounded to binary64,
    then its product with the float 100.0 rounded to binary64. *)
Definition spec_percentage (votes total_votes : Z) : number :=
  if decide (0 < total_votes)
  then PyFloat (SFmul 53 1024 (SFdiv 53 1024 (Z2SF votes) (Z2SF total_votes))
                  float_100)
  else PyInt 0.

(** What the results page shows for the Choices of a Question: each
    instance with the specified percentage attached. *)
Definition shown_choices (db : Database) (q : Question) : list Choice :=
  (λ c, set_percentage c (spec_percentage (votes (c_fields c)) (question_total db q)))
    <$> iter_choices (choice_set db q).

(** [mp] is a most popular choice among [choices] for the total [total]. *)
Definition is_most_popular (total : Z) (choices : list Choice) (mp : option Choice) : Prop :=
  (0 < total → choices ≠ [] →
     ∃ c, mp = Some c ∧ c ∈ choices ∧
          ∀ c', c' ∈ choices → votes (c_fields c') ≤ votes (c_fields c)) ∧
  (total = 0 ∨ choices = [] → mp = None).

(** What the listing shows: the instances of the view's queryset, each
    with the total of its counters attached. *)
Definition listed (db : Database) (now : Z) : list Question :=
  (λ q, set_total_votes q (question_total db q)) <$> IndexView.get_queryset db now.

(** The responses of [vote]. *)
Definition results_redirect (question_id : Z) : HttpResponse :=
  HttpResponseRedirect (reverse_url "polls:results" [question_id]).

Definition error_page (question : Question) : HttpResponse :=
  TemplateResponse "polls/detail.html"
    (<["error_message" := VStr "You didn't select a choice."]>
       {["question" := VQuestion question]}).

(** A row with its counter one higher. *)
Definition voted (row : ChoiceRow) : ChoiceRow :=
  {| question_id := question_id row;
     choice_text := choice_text row;
     votes := votes row + 1 |}.

(** The outcomes of [vote], by the state of the storage and the form. *)
Inductive vote_outcome (db : Database) (qid : Z) (POST : gmap string string)
    : result HttpResponse * Database → Prop :=
  | vote_no_question :
      Question_objects db !! qid = None →
      vote_outcome db qid POST
        (Raise (Http404 "No Question matches the given query."), db)
  | vote_no_field q :
      Question_objects db !! qid = Some q →
      POST !! "choice" = None →
      vote_outcome db qid POST (Ok (error_page (question_of (qid, q))), db)
  | vote_not_a_number q raw :
      Question_objects db !! qid = Some q →
      POST !! "choice" = Some raw → py_int raw = None →
      vote_outcome db qid POST (Raise ValueError, db)
  | vote_no_choice q raw cid :
      Question_objects db !! qid = Some q →
      POST !! "choice" = Some raw → py_int raw = Some cid →
      (∀ row, Choice_objects db !! cid = Some row → question_id row ≠ qid) →
      vote_outcome db qid POST (Ok (error_page (question_of (qid, q))), db)
  | vote_counted q raw cid row :
      Question_objects db !! qid = Some q →
      POST !! "choice" = Some raw → py_int raw = Some cid →
      Choice_objects db !! cid = Some row → question_id row = qid →
      vote_outcome db qid POST
        (Ok (results_redirect qid),
         {| Question_objects := Question_objects db;
            Choice_objects := <[cid := voted row]> (Choice_objects db) |}).

(** ** Definitions used by the further properties *)

(** A sequence of vote requests handled one after the other, each a
    Question identifier and a form: the storage after the last one. *)
Fixpoint vote_all (requests : list (Z * gmap string string)) (db : Database)
    : Database :=
  match requests with
  | [] => db
  | request :: requests' => vote_all requests' (vote db request.1 request.2).2
  end.

(** The key of the Choice a request selects: the Question exists, the
    form has a choice field that [int] accepts, and the Choice with that
    key belongs to the Question. *)
Definition selected_key (db : Database) (qid : Z) (POST : gmap string string)
    : option Z :=
  match Question_objects db !! qid, POST !! "choice" with
  | Some _, Some raw =>
      match py_int raw with
      | Some cid =>
          match Choice_objects db !! cid with
          | Some row => if decide (question_id row = qid) then Some cid else None
          | None => None
          end
      | None => None
      end
  | _, _ => None
  end.

(** The choice field of the request, if it has one, is a string of
    [plain_ascii]. *)
Definition plain_request (request : Z * gmap string string) : bool :=
  match request.2 !! "choice" with
  | Some raw => plain_ascii raw
  | None => true
  end.

(** How many requests of a sequence select the Choice with key [k]. *)
Definition votes_for (db : Database) (k : Z)
    (requests : list (Z * gmap string string)) : Z :=
  Z.of_nat (length (filter (λ request, selected_key db request.1 request.2 = Some k)
                      requests)).

(** The storage with the counter of one Choice one higher. *)
Definition count_vote (cid : Z) (db : Database) : Database :=
  {| Question_objects := Question_objects db;
     Choice_objects := alter voted cid (Choice_objects db) |}.

(** Every Choice refers to a Question of the storage and no counter is
    negative. *)
Definition db_consistent (db : Database) : Prop :=
  ∀ k row, Choice_objects db !! k = Some row →
    is_Some (Question_objects db !! question_id row) ∧ 0 ≤ votes row.

(** The total a page has attached to a Question (0 when it has attached
    none). *)
Definition attached_total (q : Question) : Z :=
  match total_votes q with
  | Attached t => t
  | Unset => 0
  end.

(** A zero or a finite float: neither an infinity nor a NaN. *)
Definition is_finite_float (x : spec_float) : bool :=
  match x with
  | S754_zero _ | S754_finite _ _ _ => true
  | _ => false
  end.

Definition is_finite_number (x : number) : bool :=
  match x with
  | PyInt _ => true
  | PyFloat f => is_finite_float f
  end.

(** A database with one Choice of another Question. *)
Definition two_polls_db : Database :=
  {| Question_objects :=
       <[ 1 := Q1 ]> {[ 2 := {| question_text := "Q2"; pub_date := 150 |} ]};
     Choice_objects :=
       <[ 11 := {| question_id := 1; choice_text := "Yes"; votes := 2 |} ]>
         (<[ 12 := {| question_id := 1; choice_text := "No"; votes := 2 |} ]>
            {[ 21 := {| question_id := 2; choice_text := "Maybe"; votes := 5 |} ]}) |}.

(** * Properties *)

(** ** Python arithmetic and conversions on examples *)

Example py_int_examples :
  py_int "42" = Some 42 ∧ py_int " -7 " = Some (-7) ∧ py_int "1_000" = Some 1000 ∧
  py_int "007" = Some 7 ∧ py_int "" = None ∧ py_int "abc" = None ∧
  py_int "1__0" = None ∧ py_int "4 2" = None ∧ py_int "1.5" = None.
Proof. repeat split; reflexivity. Qed.

Example py_truediv_3_4 :
  py_truediv 3 4 = Ok (S754_finite false 6755399441055744 (-53)).
Proof. reflexivity. Qed.

Example percent_3_of_4 :
  (λ q, py_float_mul_int q 100) <$> py_truediv 3 4 = Ok (py_float 75).
Proof. vm_compute. reflexivity. Qed.

(** ** Binary64 division of integers stays in range *)

Lemma digits2_pos_size p : digits2_pos p = Pos.size p.
Proof. induction p; simpl; congruence. Qed.

Lemma Zdigits2_nonneg m : 0 ≤ Zdigits2 m.
Proof. destruct m; simpl; lia. Qed.

Lemma Zdigits2_gt m : 0 ≤ m → m < 2 ^ Zdigits2 m.
Proof.
  destruct m as [|p|p]; simpl; [lia| |lia]. intros _.
  rewrite digits2_pos_size.
  pose proof (Pos.size_gt p) as H.
  apply Pos2Z.pos_lt_pos in H. rewrite Pos2Z.inj_pow in H. exact H.
Qed.

Lemma Zdigits2_le m : 0 < m → 2 ^ (Zdigits2 m - 1) ≤ m.
Proof.
  destruct m as [|p|p]; simpl; [lia| |lia]. intros _.
  rewrite digits2_pos_size.
  pose proof (Pos.size_le p) as H.
  apply Pos2Z.pos_le_pos in H. rewrite Pos2Z.inj_pow in H.
  replace (Z.pos (Pos.size p)) with (Z.succ (Z.pos (Pos.size p) - 1)) in H by lia.
  rewrite Z.pow_succ_r in H by lia. lia.
Qed.

Lemma Zdigits2_below m k : 0 ≤ m → 0 ≤ k → m < 2 ^ k → Zdigits2 m ≤ k.
Proof.
  intros Hm Hk Hlt.
  destruct (Z.eq_dec m 0) as [->|Hne]; [simpl; lia|].
  pose proof (Zdigits2_le m ltac:(lia)) as Hle.
  pose proof (Zdigits2_nonneg m).
  assert (2 ^ (Zdigits2 m - 1) < 2 ^ k) as Hp by lia.
  apply Z.pow_lt_mono_r_iff in Hp; lia.
Qed.

Lemma shr_1_digits r :
  0 ≤ shr_m r →
  0 ≤ shr_m (shr_1 r) ∧ Zdigits2 (shr_m (shr_1 r)) = Z.max 0 (Zdigits2 (shr_m r) - 1).
Proof.
  destruct r as [[|[p|p|]|p] b s]; simpl; intros H; try lia.
Qed.

Lemma iter_shr_1_digits p : ∀ r,
  0 ≤ shr_m r →
  0 ≤ shr_m (SpecFloat.iter_pos shr_1 p r) ∧
  Zdigits2 (shr_m (SpecFloat.iter_pos shr_1 p r)) = Z.max 0 (Zdigits2 (shr_m r) - Z.pos p).
Proof.
  induction p as [p IH|p IH|]; intros r Hr; simpl.
  - destruct (shr_1_digits r Hr) as [H1 E1].
    destruct (IH _ H1) as [H2 E2]. destruct (IH _ H2) as [H3 E3].
    split; [done|]. rewrite E3, E2, E1. lia.
  - destruct (IH _ Hr) as [H2 E2]. destruct (IH _ H2) as [H3 E3].
    split; [done|]. rewrite E3, E2. lia.
  - by apply shr_1_digits.
Qed.

Lemma fexp_64 e : fexp prec emax e = fexp64 e.
Proof. reflexivity. Qed.

Lemma shr_record_of_loc_m m l : shr_m (shr_record_of_loc m l) = m.
Proof. by destruct l as [|[]]. Qed.

Lemma shr_fexp_bounds m e l r e1 :
  0 ≤ m → shr_fexp prec emax m e l = (r, e1) →
  0 ≤ shr_m r ∧ e1 = Z.max e (fexp64 (Zdigits2 m + e)) ∧
  Zdigits2 (shr_m r) + e1 ≤ Z.max (Zdigits2 m + e) e1.
Proof.
  intros Hm. unfold shr_fexp, shr. rewrite fexp_64.
  destruct (fexp64 (Zdigits2 m + e) - e) as [|n|n] eqn:En; intros [= <- <-].
  - rewrite shr_record_of_loc_m. lia.
  - destruct (iter_shr_1_digits n (shr_record_of_loc m l)) as [H E].
    { by rewrite shr_record_of_loc_m. }
    rewrite shr_record_of_loc_m in E. rewrite E. lia.
  - rewrite shr_record_of_loc_m. lia.
Qed.

Lemma round_nearest_even_bounds m l :
  m ≤ round_nearest_even m l ≤ m + 1.
Proof. destruct l as [|[]]; simpl; try destruct (Z.even m); lia. Qed.

Lemma Zdigits2_succ m m' : 0 ≤ m → 0 ≤ m' ≤ m + 1 → Zdigits2 m' ≤ Zdigits2 m + 1.
Proof.
  intros Hm Hm'. pose proof (Zdigits2_nonneg m). pose proof (Zdigits2_gt m Hm).
  apply Zdigits2_below; [lia..|].
  rewrite Z.pow_add_r by lia. lia.
Qed.

Lemma binary_round_aux_finite s m e l :
  0 ≤ m → e ≤ 971 → Zdigits2 m + e ≤ 1023 →
  is_infinity (binary_round_aux prec emax s m e l) = false.
Proof.
  intros Hm He Hx. unfold binary_round_aux.
  destruct (shr_fexp prec emax m e l) as [r1 e1] eqn:E1.
  apply shr_fexp_bounds in E1 as (Hr1 & -> & Hd1); [|done].
  pose proof (round_nearest_even_bounds (shr_m r1) (loc_of_shr_record r1)) as Hrne.
  set (m2 := round_nearest_even _ _) in *.
  pose proof (Zdigits2_succ (shr_m r1) m2 Hr1 ltac:(lia)) as Hd2.
  destruct (shr_fexp prec emax m2 _ loc_Exact) as [r2 e2] eqn:E2.
  apply shr_fexp_bounds in E2 as (Hr2 & -> & _); [|lia].
  destruct (shr_m r2); [done| |done].
  destruct (Z.leb_spec (Z.max (Z.max e (fexp64 (Zdigits2 m + e)))
      (fexp64 (Zdigits2 m2 + Z.max e (fexp64 (Zdigits2 m + e))))) (emax - prec)) as [|Hgt];
    [done|].
  unfold fexp64, emax, prec in *. lia.
Qed.

Lemma SFdiv_core_binary_bounds m1 m2 q e l :
  SFdiv_core_binary prec emax (Z.pos m1) 0 (Z.pos m2) 0 = (q, e, l) →
  0 ≤ q ∧ e ≤ 0 ∧ Zdigits2 q + e ≤ Zdigits2 (Z.pos m1).
Proof.
  unfold SFdiv_core_binary. rewrite fexp_64.
  set (d := Zdigits2 (Z.pos m1) + 0 - (Zdigits2 (Z.pos m2) + 0)).
  set (e' := Z.min (fexp64 d) (0 - 0)).
  set (m' := match 0 - 0 - e' with Z.pos _ => _ | _ => _ end).
  assert (e' ≤ 0) as He' by (subst e'; lia).
  assert (m' = Z.pos m1 * 2 ^ (- e')) as Hm'.
  { subst m'. destruct (0 - 0 - e') as [|s|s] eqn:Es; [| |lia].
    - replace (- e') with 0 by lia. lia.
    - rewrite Z.shiftl_mul_pow2 by lia. f_equal. f_equal. lia. }
  clearbody m' e'. clear d.
  pose proof (Z.div_eucl_eq m' (Z.pos m2) ltac:(lia)) as Heq.
  pose proof (Z.mod_pos_bound m' (Z.pos m2) ltac:(lia)) as Hmod.
  unfold Z.modulo in Hmod.
  destruct (Z.div_eucl m' (Z.pos m2)) as [q' r']. intros [= <- <- _].
  assert (0 < 2 ^ (- e')) by (apply Z.pow_pos_nonneg; lia).
  assert (0 ≤ q') as Hq by nia.
  split; [done|]. split; [done|].
  pose proof (Zdigits2_gt (Z.pos m1) ltac:(lia)) as Hd.
  pose proof (Zdigits2_nonneg (Z.pos m1)).
  enough (Zdigits2 q' ≤ Zdigits2 (Z.pos m1) + - e') by lia.
  apply Zdigits2_below; [lia..|].
  rewrite Z.pow_add_r by lia. nia.
Qed.

Lemma SFdiv_Z2SF_finite a b :
  b ≠ 0 → Z.abs a < 2 ^ 1023 →
  is_infinity (SFdiv prec emax (Z2SF a) (Z2SF b)) = false.
Proof.
  intros Hb Ha.
  destruct b as [|pb|pb]; [done|..]; destruct a as [|pa|pa]; try done; simpl Z2SF;
    unfold SFdiv;
    destruct (SFdiv_core_binary prec emax (Z.pos pa) 0 (Z.pos pb) 0) as [[q e] l] eqn:E;
    apply SFdiv_core_binary_bounds in E as (Hq & He & Hd);
    (apply binary_round_aux_finite; [done|lia|]);
    (assert (Zdigits2 (Z.pos pa) ≤ 1023) by (apply Zdigits2_below; lia)); lia.
Qed.

Lemma py_truediv_Ok a b :
  b ≠ 0 → Z.abs a < 2 ^ 1023 →
  py_truediv a b = Ok (SFdiv prec emax (Z2SF a) (Z2SF b)).
Proof.
  intros Hb Ha. unfold py_truediv. rewrite decide_False by done.
  pose proof (SFdiv_Z2SF_finite a b Hb Ha) as Hfin.
  by destruct (SFdiv prec emax (Z2SF a) (Z2SF b)).
Qed.

Lemma py_truediv_ZeroDivisionError a b :
  py_truediv a b = Raise ZeroDivisionError ↔ b = 0.
Proof.
  unfold py_truediv. case_decide as Hb; [done|].
  split; [|done]. by destruct (SFdiv prec emax (Z2SF a) (Z2SF b)).
Qed.

(** ** Aggregates, loops and [max] *)

Lemma Coalesce_Sum l : Coalesce (Sum l) 0 = foldr Z.add 0 l.
Proof. by destruct l. Qed.

Lemma py_or_0_Sum l : py_or_0 (Sum l) = foldr Z.add 0 l.
Proof. destruct l as [|x l]; [done|]. simpl. case_decide; congruence. Qed.

Lemma for_each_Ok {A B} (body : A → result B) (f : A → B) (l : list A) :
  (∀ x, x ∈ l → body x = Ok (f x)) → for_each body l = Ok (f <$> l).
Proof.
  induction l as [|x l IH]; intros H; [done|]. simpl.
  rewrite (H x) by left. simpl.
  rewrite IH; [done|]. intros y Hy. apply H. by right.
Qed.

Lemma for_each_Raise {A B} (body : A → result B) (l : list A) e :
  for_each body l = Raise e → ∃ x, x ∈ l ∧ body x = Raise e.
Proof.
  induction l as [|x l IH]; [done|]. simpl.
  destruct (body x) as [y|e'] eqn:Ex; simpl.
  - destruct (for_each body l) as [ys|e'']; simpl; [done|].
    intros [= ->]. destruct IH as (z & Hz & Ez); [done|].
    exists z. split; [by right|done].
  - intros [= ->]. exists x. split; [left|done].
Qed.

Lemma foldl_max_spec {A} (key : A → Z) (l : list A) (x : A) :
  let m := foldl (λ best y, if decide (key best < key y) then y else best) x l in
  m ∈ x :: l ∧ ∀ y, y ∈ x :: l → key y ≤ key m.
Proof.
  revert x. induction l as [|z l IH]; intros x; simpl.
  - split; [left|]. intros y ->%list_elem_of_singleton. lia.
  - destruct (IH (if decide (key x < key z) then z else x)) as [Hin Hmax].
    split.
    + apply elem_of_cons in Hin as [->|Hin].
      * case_decide; [right; left|left].
      * by do 2 right.
    + intros y Hy.
      assert (key x ≤ key (if decide (key x < key z) then z else x)
              ∧ key z ≤ key (if decide (key x < key z) then z else x)) as [Hx Hz]
        by (case_decide; lia).
      apply elem_of_cons in Hy as [->|Hy].
      * etrans; [exact Hx|]. apply Hmax. left.
      * apply elem_of_cons in Hy as [->|Hy].
        -- etrans; [exact Hz|]. apply Hmax. left.
        -- apply Hmax. by right.
Qed.

Lemma py_max_Ok {A} (key : A → Z) (l : list A) :
  l ≠ [] → ∃ m, py_max key l = Ok m ∧ m ∈ l ∧ ∀ y, y ∈ l → key y ≤ key m.
Proof.
  destruct l as [|x l]; [done|]. intros _. eexists. split; [done|].
  apply foldl_max_spec.
Qed.

(** ** Querysets *)

Lemma lookup_filter_pub_date_lte now qs pk r :
  filter_pub_date_lte now qs !! pk = Some r ↔ qs !! pk = Some r ∧ pub_date r ≤ now.
Proof. unfold filter_pub_date_lte. by rewrite map_lookup_filter_Some. Qed.

Lemma lookup_choice_set db q k r :
  choice_set db q !! k = Some r ↔
  Choice_objects db !! k = Some r ∧ question_id r = q_pk q.
Proof. unfold choice_set. by rewrite map_lookup_filter_Some. Qed.

Lemma elem_of_iter_choices qs c :
  c ∈ iter_choices qs ↔ qs !! c_pk c = Some (c_fields c) ∧ percentage c = Unset.
Proof.
  unfold iter_choices. rewrite list_elem_of_fmap. split.
  - intros ([k r] & -> & H%elem_of_map_to_list). done.
  - intros [H Hp]. exists (c_pk c, c_fields c).
    split; [|by apply elem_of_map_to_list].
    destruct c; simpl in *; by subst.
Qed.

Lemma votes_of_iter_choices qs :
  votes_of qs = (λ c, votes (c_fields c)) <$> iter_choices qs.
Proof. unfold votes_of, iter_choices. by rewrite <-list_fmap_compose. Qed.

Lemma db_storable_choice_set db q c :
  db_storable db → c ∈ iter_choices (choice_set db q) →
  Z.abs (votes (c_fields c)) < 2 ^ 1023.
Proof.
  intros Hdb [[H _]%lookup_choice_set _]%elem_of_iter_choices.
  apply Hdb in H. simpl in H.
  assert (2 ^ 63 < 2 ^ 1023) by (apply Z.pow_lt_mono_r; lia). lia.
Qed.

(** ** Counters in the range of the storage *)

Lemma elem_le_sum (l : list Z) x :
  Forall (λ y, 0 ≤ y) l → x ∈ l → x ≤ foldr Z.add 0 l.
Proof.
  induction 1 as [|y l Hy Hl IH]; intros Hx; [by apply elem_of_nil in Hx|].
  assert (0 ≤ foldr Z.add 0 l) by (clear -Hl; induction Hl; simpl; lia).
  apply elem_of_cons in Hx as [->|Hx]; simpl; [lia|]. specialize (IH Hx). lia.
Qed.

Lemma abs_le_total_abs db k row :
  Choice_objects db !! k = Some row → Z.abs (votes row) ≤ total_abs db.
Proof.
  intros Hrow. unfold total_abs. apply elem_le_sum.
  - apply Forall_fmap, Forall_forall. intros kr _. simpl. lia.
  - apply list_elem_of_fmap. exists (k, row). split; [done|].
    by apply elem_of_map_to_list.
Qed.

Lemma total_abs_nonneg db : 0 ≤ total_abs db.
Proof.
  unfold total_abs. induction (map_to_list (Choice_objects db)); csimpl; lia.
Qed.

Lemma db_in_range_storable room db :
  0 ≤ room → db_in_range_for room db → db_storable db.
Proof.
  intros Hroom Hdb k row Hrow. simpl.
  pose proof (abs_le_total_abs db k row Hrow). unfold db_in_range_for in Hdb. lia.
Qed.

Lemma db_in_range_0 db : db_in_range db → db_storable db.
Proof. by apply db_in_range_storable. Qed.

Lemma foldr_add_perm (l l' : list Z) :
  l ≡ₚ l' → foldr Z.add 0 l = foldr Z.add 0 l'.
Proof. induction 1; simpl; lia. Qed.

Lemma total_abs_insert db k row0 row :
  Choice_objects db !! k = Some row0 →
  total_abs {| Question_objects := Question_objects db;
               Choice_objects := <[k := row]> (Choice_objects db) |}
  = total_abs db - Z.abs (votes row0) + Z.abs (votes row).
Proof.
  intros Hk. unfold total_abs. simpl.
  rewrite <-(insert_delete_id (Choice_objects db) k row0 Hk) at 2.
  rewrite <-(insert_delete_eq (Choice_objects db) k row).
  rewrite (foldr_add_perm _ _
             (fmap_Permutation _ _ _
                (map_to_list_insert (delete k (Choice_objects db)) k row
                   (lookup_delete_eq _ _)))).
  rewrite (foldr_add_perm _ _
             (fmap_Permutation _ _ _
                (map_to_list_insert (delete k (Choice_objects db)) k row0
                   (lookup_delete_eq _ _)))).
  simpl. lia.
Qed.

(** ** The results view *)

Lemma context_question_bind_object q context :
  context_question (bind_object q context) "question" = Ok q.
Proof. unfold context_question, bind_object. by rewrite lookup_insert_eq. Qed.

Lemma attach_percentage_Ok total c :
  Z.abs (votes (c_fields c)) < 2 ^ 1023 →
  ResultsView.attach_percentage total c
  = Ok (set_percentage c (spec_percentage (votes (c_fields c)) total)).
Proof.
  intros Hc. unfold ResultsView.attach_percentage, spec_percentage.
  case_decide as Ht; [|done].
  rewrite py_truediv_Ok by (done || lia). done.
Qed.

Lemma attach_percentage_no_ZeroDivisionError total c :
  ResultsView.attach_percentage total c ≠ Raise ZeroDivisionError.
Proof.
  unfold ResultsView.attach_percentage. case_decide as Ht; [|done].
  destruct (py_truediv (votes (c_fields c)) total) as [q|e] eqn:E; [done|].
  simpl. intros [= ->]. apply py_truediv_ZeroDivisionError in E. lia.
Qed.

Lemma question_total_shown_choices db q :
  question_total db q = foldr Z.add 0 ((λ c, votes (c_fields c)) <$> shown_choices db q).
Proof.
  unfold question_total, shown_choices.
  by rewrite votes_of_iter_choices, <-list_fmap_compose.
Qed.

Lemma ResultsView_get_context_data_Ok db q :
  db_storable db →
  ∃ mp,
    ResultsView.get_context_data db q
    = Ok (<["choices" := VChoiceList (shown_choices db q)]>
            (bind_object
               (set_most_popular_choice (set_total_votes q (question_total db q)) mp)
               (bind_object q ∅)))
    ∧ is_most_popular (question_total db q) (shown_choices db q) mp.
Proof.
  intros Hdb. unfold ResultsView.get_context_data.
  rewrite context_question_bind_object. simpl.
  rewrite py_or_0_Sum. fold (question_total db q).
  rewrite (for_each_Ok _
    (λ c, set_percentage c (spec_percentage (votes (c_fields c)) (question_total db q))))
    by (intros c Hc; apply attach_percentage_Ok; by eapply db_storable_choice_set).
  fold (shown_choices db q). simpl.
  destruct (bool_decide (0 < question_total db q) && bool_decide (shown_choices db q ≠ []))
    eqn:Hguard.
  - apply andb_true_iff in Hguard as [Ht%bool_decide_eq_true Hne%bool_decide_eq_true].
    destruct (py_max_Ok (λ c, votes (c_fields c)) _ Hne) as (m & -> & Hin & Hmax).
    exists (Some m). split; [done|]. split.
    + intros _ _. by exists m.
    + intros [?|?]; [lia|done].
  - exists None. split; [done|]. split; [|done].
    intros Ht Hne. apply andb_false_iff in Hguard as [H%bool_decide_eq_false|H%bool_decide_eq_false];
      done.
Qed.

Lemma get_object_published now qs pk r :
  qs !! pk = Some r → pub_date r ≤ now →
  get_object (filter_pub_date_lte now qs) pk = Ok (question_of (pk, r)).
Proof.
  intros Hr Hnow. unfold get_object.
  by rewrite (proj2 (lookup_filter_pub_date_lte now qs pk r)).
Qed.

Lemma get_object_not_found now qs pk :
  (∀ r, qs !! pk = Some r → now < pub_date r) →
  get_object (filter_pub_date_lte now qs) pk
  = Raise (Http404 "No question found matching the query").
Proof.
  intros H. unfold get_object.
  destruct (filter_pub_date_lte now qs !! pk) as [r|] eqn:E; [|done].
  apply lookup_filter_pub_date_lte in E as [E Hle]. apply H in E. lia.
Qed.

Lemma get_object_inv now qs pk q :
  get_object (filter_pub_date_lte now qs) pk = Ok q →
  ∃ r, q = question_of (pk, r) ∧ qs !! pk = Some r ∧ pub_date r ≤ now.
Proof.
  unfold get_object.
  destruct (filter_pub_date_lte now qs !! pk) as [r|] eqn:E; [|done].
  intros [= <-]. apply lookup_filter_pub_date_lte in E as [E Hle]. by exists r.
Qed.

Lemma get_object_Raise qs pk e :
  get_object qs pk = Raise e → e = Http404 "No question found matching the query".
Proof. unfold get_object. destruct (qs !! pk); congruence. Qed.

Lemma ResultsView_get_Ok db now pk r :
  db_storable db → Question_objects db !! pk = Some r → pub_date r ≤ now →
  let q := question_of (pk, r) in
  ∃ mp,
    ResultsView.get db now pk
    = Ok (TemplateResponse "polls/results.html"
            (<["choices" := VChoiceList (shown_choices db q)]>
               (bind_object
                  (set_most_popular_choice (set_total_votes q (question_total db q)) mp)
                  (bind_object q ∅))))
    ∧ is_most_popular (question_total db q) (shown_choices db q) mp.
Proof.
  intros Hdb Hr Hnow q. unfold ResultsView.get, ResultsView.get_queryset.
  rewrite (get_object_published now _ pk r) by done. subst q.
  cbn [mbind result_bind].
  destruct (ResultsView_get_context_data_Ok db (question_of (pk, r)) Hdb) as (mp & -> & Hmp).
  by exists mp.
Qed.

Lemma ResultsView_get_no_ZeroDivisionError db now pk :
  ResultsView.get db now pk ≠ Raise ZeroDivisionError.
Proof.
  unfold ResultsView.get.
  destruct (get_object _ pk) as [q|e] eqn:Eobj; simpl;
    [|apply get_object_Raise in Eobj as ->; done].
  unfold ResultsView.get_context_data.
  rewrite context_question_bind_object. simpl.
  destruct (for_each _ _) as [choices|e] eqn:Eloop; simpl.
  - destruct (bool_decide _ && bool_decide (choices ≠ [])) eqn:Hguard; [|done].
    apply andb_true_iff in Hguard as [_ Hne%bool_decide_eq_true].
    by destruct choices.
  - intros [= ->]. apply for_each_Raise in Eloop as (c & _ & Hc).
    by apply attach_percentage_no_ZeroDivisionError in Hc.
Qed.

Lemma shown_choices_rows db q k row :
  (∃ c, c ∈ shown_choices db q ∧ c_pk c = k ∧ c_fields c = row) ↔
  Choice_objects db !! k = Some row ∧ question_id row = q_pk q.
Proof.
  rewrite <-lookup_choice_set. unfold shown_choices. split.
  - intros (c & (c0 & -> & [H _]%elem_of_iter_choices)%list_elem_of_fmap & <- & <-).
    done.
  - intros H. eexists. split.
    + apply list_elem_of_fmap. exists (choice_of (k, row)). split; [done|].
      by apply elem_of_iter_choices.
    + done.
Qed.

Lemma shown_choices_percentage db q c :
  c ∈ shown_choices db q →
  percentage c = Attached (spec_percentage (votes (c_fields c)) (question_total db q)).
Proof. by intros (c0 & -> & _)%list_elem_of_fmap. Qed.

(** C1.  The results page never fails with a division by zero, whatever
    the vote counters.  For a published Question, in a database whose
    counters keep the sums of the storage in range, it is rendered with
    exactly the Choices of the Question, each with the percentage
    votes / total_votes × 100 when the total of the Question's counters
    is positive and with the integer 0 otherwise; in particular every
    percentage is exactly 0 when the total is 0. *)
Theorem results_percentage db now pk :
  ResultsView.get db now pk ≠ Raise ZeroDivisionError ∧
  ∀ r, db_in_range db → Question_objects db !! pk = Some r → pub_date r ≤ now →
    let total := question_total db (question_of (pk, r)) in
    ∃ context choices,
      ResultsView.get db now pk = Ok (TemplateResponse "polls/results.html" context) ∧
      context !! "choices" = Some (VChoiceList choices) ∧
      (∀ k row, (∃ c, c ∈ choices ∧ c_pk c = k ∧ c_fields c = row) ↔
                Choice_objects db !! k = Some row ∧ question_id row = pk) ∧
      ∀ c, c ∈ choices →
        percentage c = Attached (spec_percentage (votes (c_fields c)) total) ∧
        (total = 0 → percentage c = Attached (PyInt 0)).
Proof.
  split; [apply ResultsView_get_no_ZeroDivisionError|].
  intros r Hdb%db_in_range_0 Hr Hnow total.
  destruct (ResultsView_get_Ok db now pk r Hdb Hr Hnow) as (mp & Hget & _).
  eexists _, (shown_choices db (question_of (pk, r))).
  split; [exact Hget|]. split; [by rewrite lookup_insert_eq|].
  split; [intros k row; apply shown_choices_rows|].
  intros c Hc. rewrite (shown_choices_percentage _ _ _ Hc). split; [done|].
  fold total. intros ->. done.
Qed.

Lemma results_percentage_witness :
  ∃ context choices,
    ResultsView.get (scenario_db 3 1) 200 1
    = Ok (TemplateResponse "polls/results.html" context) ∧
    context !! "choices" = Some (VChoiceList choices) ∧
    (∀ k row, (∃ c, c ∈ choices ∧ c_pk c = k ∧ c_fields c = row) ↔
              Choice_objects (scenario_db 3 1) !! k = Some row ∧ question_id row = 1) ∧
    ∀ c, c ∈ choices →
      percentage c
      = Attached (spec_percentage (votes (c_fields c))
                    (question_total (scenario_db 3 1) (question_of (1, Q1)))) ∧
      (question_total (scenario_db 3 1) (question_of (1, Q1)) = 0 →
       percentage c = Attached (PyInt 0)).
Proof.
  apply (proj2 (results_percentage (scenario_db 3 1) 200 1) Q1).
  - vm_compute. reflexivity.
  - reflexivity.
  - simpl. lia.
Defined.

(** C4.  For a published Question, in a database whose counters keep the
    sums of the storage in range, the results page attaches a most
    popular choice to the Question: when the
    total of the Question's counters is positive and the Question has a
    Choice, it is one of the Choices shown, and none of them has a larger
    counter; when the total is 0 or the Question has no Choice, it is
    [None]. *)
Theorem results_most_popular_choice db now pk r :
  db_in_range db → Question_objects db !! pk = Some r → pub_date r ≤ now →
  let total := question_total db (question_of (pk, r)) in
  ∃ context question choices mp,
    ResultsView.get db now pk = Ok (TemplateResponse "polls/results.html" context) ∧
    context !! "question" = Some (VQuestion question) ∧
    context !! "choices" = Some (VChoiceList choices) ∧
    (∀ k row, (∃ c, c ∈ choices ∧ c_pk c = k ∧ c_fields c = row) ↔
              Choice_objects db !! k = Some row ∧ question_id row = pk) ∧
    most_popular_choice question = Attached mp ∧
    (0 < total → choices ≠ [] →
       ∃ c, mp = Some c ∧ c ∈ choices ∧
            ∀ c', c' ∈ choices → votes (c_fields c') ≤ votes (c_fields c)) ∧
    (total = 0 ∨ choices = [] → mp = None).
Proof.
  intros Hdb%db_in_range_0 Hr Hnow total.
  destruct (ResultsView_get_Ok db now pk r Hdb Hr Hnow) as (mp & Hget & Hmp1 & Hmp2).
  eexists _, _, (shown_choices db (question_of (pk, r))), mp.
  split; [exact Hget|].
  split; [rewrite lookup_insert_ne by done; apply lookup_insert_eq|].
  split; [by rewrite lookup_insert_eq|].
  split; [intros k row; apply shown_choices_rows|].
  done.
Qed.

Lemma results_most_popular_choice_witness :
  ∃ context question choices mp,
    ResultsView.get (scenario_db 3 1) 200 1
    = Ok (TemplateResponse "polls/results.html" context) ∧
    context !! "question" = Some (VQuestion question) ∧
    context !! "choices" = Some (VChoiceList choices) ∧
    (∀ k row, (∃ c, c ∈ choices ∧ c_pk c = k ∧ c_fields c = row) ↔
              Choice_objects (scenario_db 3 1) !! k = Some row ∧ question_id row = 1) ∧
    most_popular_choice question = Attached mp ∧
    (0 < question_total (scenario_db 3 1) (question_of (1, Q1)) → choices ≠ [] →
       ∃ c, mp = Some c ∧ c ∈ choices ∧
            ∀ c', c' ∈ choices → votes (c_fields c') ≤ votes (c_fields c)) ∧
    (question_total (scenario_db 3 1) (question_of (1, Q1)) = 0 ∨ choices = [] →
     mp = None).
Proof.
  apply (results_most_popular_choice (scenario_db 3 1) 200 1 Q1).
  - vm_compute. reflexivity.
  - reflexivity.
  - simpl. lia.
Defined.

(** ** The detail view and the not-found rule *)

Lemma DetailView_get_context_data_Ok db q :
  DetailView.get_context_data db q
  = Ok (bind_object (set_total_votes q (question_total db q)) (bind_object q ∅)).
Proof.
  unfold DetailView.get_context_data.
  rewrite context_question_bind_object. cbn [mbind result_bind].
  by rewrite Coalesce_Sum.
Qed.

Lemma DetailView_get_Ok db now pk r :
  Question_objects db !! pk = Some r → pub_date r ≤ now →
  let q := question_of (pk, r) in
  DetailView.get db now pk
  = Ok (TemplateResponse "polls/detail.html"
          (bind_object (set_total_votes q (question_total db q)) (bind_object q ∅))).
Proof.
  intros Hr Hnow q. unfold DetailView.get, DetailView.get_queryset.
  rewrite (get_object_published now _ pk r) by done. cbn [mbind result_bind].
  by rewrite DetailView_get_context_data_Ok.
Qed.

Lemma DetailView_get_not_found db now pk :
  (∀ r, Question_objects db !! pk = Some r → now < pub_date r) →
  DetailView.get db now pk = Raise (Http404 "No question found matching the query").
Proof.
  intros H. unfold DetailView.get, DetailView.get_queryset.
  by rewrite get_object_not_found.
Qed.

Lemma ResultsView_get_not_found db now pk :
  (∀ r, Question_objects db !! pk = Some r → now < pub_date r) →
  ResultsView.get db now pk = Raise (Http404 "No question found matching the query").
Proof.
  intros H. unfold ResultsView.get, ResultsView.get_queryset.
  by rewrite get_object_not_found.
Qed.

Lemma published_dec db now pk :
  (∃ r, Question_objects db !! pk = Some r ∧ pub_date r ≤ now) ∨
  (∀ r, Question_objects db !! pk = Some r → now < pub_date r).
Proof.
  destruct (Question_objects db !! pk) as [r|]; [|right; done].
  destruct (decide (pub_date r ≤ now)); [left; by exists r|].
  right. intros ? [= <-]. lia.
Qed.

Lemma bind_object_question q context :
  bind_object q context !! "question" = Some (VQuestion q).
Proof. apply lookup_insert_eq. Qed.

(** C6.  Detail and Results answer with the Question -- the instance of
    that identifier, with the total of its counters attached -- when a
    Question with the identifier exists and its publication date is not
    after now (in a database whose counters keep the sums of the storage
    in range); they answer only then; and in every other case both raise
    the same [Http404],
    whether the Question is missing or exists and is not yet published. *)
Theorem detail_results_found_iff_published db now pk :
  (∀ r, db_in_range db → Question_objects db !! pk = Some r → pub_date r ≤ now →
     (∃ context question,
        DetailView.get db now pk = Ok (TemplateResponse "polls/detail.html" context) ∧
        context !! "question" = Some (VQuestion question) ∧
        q_pk question = pk ∧ q_fields question = r ∧
        total_votes question = Attached (question_total db (question_of (pk, r)))) ∧
     (∃ context question,
        ResultsView.get db now pk = Ok (TemplateResponse "polls/results.html" context) ∧
        context !! "question" = Some (VQuestion question) ∧
        q_pk question = pk ∧ q_fields question = r ∧
        total_votes question = Attached (question_total db (question_of (pk, r))))) ∧
  (∀ response,
     DetailView.get db now pk = Ok response ∨ ResultsView.get db now pk = Ok response →
     ∃ r, Question_objects db !! pk = Some r ∧ pub_date r ≤ now) ∧
  ((∀ r, Question_objects db !! pk = Some r → now < pub_date r) →
   DetailView.get db now pk = Raise (Http404 "No question found matching the query") ∧
   ResultsView.get db now pk = Raise (Http404 "No question found matching the query")).
Proof.
  split; [|split].
  - intros r Hdb%db_in_range_0 Hr Hnow. split.
    + eexists _, _. split; [by apply DetailView_get_Ok|].
      split; [apply bind_object_question|done].
    + destruct (ResultsView_get_Ok db now pk r Hdb Hr Hnow) as (mp & Hget & _).
      eexists _, _. split; [exact Hget|].
      split; [rewrite lookup_insert_ne by done; apply bind_object_question|done].
  - intros response Hresp.
    destruct (published_dec db now pk) as [|Hno]; [done|].
    rewrite DetailView_get_not_found, ResultsView_get_not_found in Hresp by done.
    by destruct Hresp.
  - intros Hno. by rewrite DetailView_get_not_found, ResultsView_get_not_found.
Qed.

Lemma detail_results_found_iff_published_witness :
  ((∃ context question,
      DetailView.get (scenario_db 3 1) 200 1
      = Ok (TemplateResponse "polls/detail.html" context) ∧
      context !! "question" = Some (VQuestion question) ∧
      q_pk question = 1 ∧ q_fields question = Q1 ∧
      total_votes question
      = Attached (question_total (scenario_db 3 1) (question_of (1, Q1)))) ∧
   (∃ context question,
      ResultsView.get (scenario_db 3 1) 200 1
      = Ok (TemplateResponse "polls/results.html" context) ∧
      context !! "question" = Some (VQuestion question) ∧
      q_pk question = 1 ∧ q_fields question = Q1 ∧
      total_votes question
      = Attached (question_total (scenario_db 3 1) (question_of (1, Q1))))) ∧
  (∃ r, Question_objects (scenario_db 3 1) !! 1 = Some r ∧ pub_date r ≤ 200) ∧
  (DetailView.get future_db 200 1 = Raise (Http404 "No question found matching the query") ∧
   ResultsView.get future_db 200 1 = Raise (Http404 "No question found matching the query")) ∧
  (DetailView.get future_db 200 2 = Raise (Http404 "No question found matching the query") ∧
   ResultsView.get future_db 200 2 = Raise (Http404 "No question found matching the query")).
Proof.
  split; [|split; [|split]].
  - apply (proj1 (detail_results_found_iff_published (scenario_db 3 1) 200 1) Q1);
      [vm_compute; reflexivity|reflexivity|simpl; lia].
  - apply (proj1 (proj2 (detail_results_found_iff_published (scenario_db 3 1) 200 1))
             (TemplateResponse "polls/detail.html"
                (bind_object
                   (set_total_votes (question_of (1, Q1)) 4)
                   (bind_object (question_of (1, Q1)) ∅)))).
    left. vm_compute. reflexivity.
  - apply (proj2 (proj2 (detail_results_found_iff_published future_db 200 1))).
    intros r. unfold future_db. simpl. rewrite lookup_singleton_eq.
    intros [= <-]. simpl. lia.
  - apply (proj2 (proj2 (detail_results_found_iff_published future_db 200 2))).
    intros r. unfold future_db. simpl. rewrite lookup_singleton_ne by done. done.
Defined.

(** ** The listing *)

Global Instance pub_date_desc_trans : Transitive pub_date_desc.
Proof. unfold pub_date_desc. intros a b c. lia. Qed.

Global Instance pub_date_desc_total : Total pub_date_desc.
Proof. unfold pub_date_desc. intros a b. lia. Qed.

Lemma elem_of_iter_questions qs q :
  q ∈ iter_questions qs ↔
  qs !! q_pk q = Some (q_fields q) ∧ total_votes q = Unset ∧ most_popular_choice q = Unset.
Proof.
  unfold iter_questions. rewrite list_elem_of_fmap. split.
  - intros ([k r] & -> & H%elem_of_map_to_list). done.
  - intros (H & Ht & Hm). exists (q_pk q, q_fields q).
    split; [|by apply elem_of_map_to_list].
    destruct q; simpl in *; by subst.
Qed.

Lemma iter_questions_pks qs : q_pk <$> iter_questions qs = (map_to_list qs).*1.
Proof. unfold iter_questions. by rewrite <-list_fmap_compose. Qed.

Lemma order_by_pub_date_desc_Permutation qs :
  order_by_pub_date_desc qs ≡ₚ iter_questions qs.
Proof. apply merge_sort_Permutation. Qed.

Lemma order_by_pub_date_desc_sorted qs :
  StronglySorted pub_date_desc (order_by_pub_date_desc qs).
Proof. apply StronglySorted_merge_sort; apply _. Qed.

Lemma get_queryset_published db now q :
  q ∈ IndexView.get_queryset db now →
  Question_objects db !! q_pk q = Some (q_fields q) ∧ pub_date (q_fields q) ≤ now.
Proof.
  unfold IndexView.get_queryset. intros Hq%subseteq_take.
  rewrite order_by_pub_date_desc_Permutation in Hq.
  apply elem_of_iter_questions in Hq as [Hq _].
  by apply lookup_filter_pub_date_lte in Hq.
Qed.

Lemma get_queryset_sorted db now :
  StronglySorted pub_date_desc (IndexView.get_queryset db now).
Proof.
  unfold IndexView.get_queryset.
  eapply StronglySorted_app_1_l. rewrite take_drop.
  apply order_by_pub_date_desc_sorted.
Qed.

Lemma get_queryset_length db now :
  length (IndexView.get_queryset db now)
  = Nat.min 10 (size (filter (λ kr, pub_date kr.2 ≤ now) (Question_objects db))).
Proof.
  unfold IndexView.get_queryset. rewrite length_take.
  rewrite order_by_pub_date_desc_Permutation. unfold iter_questions.
  by rewrite length_fmap, length_map_to_list.
Qed.

Lemma get_queryset_NoDup db now :
  NoDup (q_pk <$> IndexView.get_queryset db now).
Proof.
  unfold IndexView.get_queryset. rewrite fmap_take.
  eapply sublist_NoDup; [|apply sublist_take].
  rewrite order_by_pub_date_desc_Permutation, iter_questions_pks.
  apply NoDup_fst_map_to_list.
Qed.

Lemma get_queryset_latest db now k r :
  Question_objects db !! k = Some r → pub_date r ≤ now →
  k ∉ q_pk <$> IndexView.get_queryset db now →
  length (IndexView.get_queryset db now) = 10%nat ∧
  ∀ q, q ∈ IndexView.get_queryset db now → pub_date r ≤ pub_date (q_fields q).
Proof.
  intros Hr Hnow Hk. unfold IndexView.get_queryset in *.
  set (sorted := order_by_pub_date_desc _) in *.
  assert (question_of (k, r) ∈ sorted) as Hin.
  { subst sorted. rewrite order_by_pub_date_desc_Permutation.
    apply elem_of_iter_questions. split; [|done].
    by apply lookup_filter_pub_date_lte. }
  rewrite <-(take_drop 10 sorted) in Hin.
  apply elem_of_app in Hin as [Hin|Hin].
  { destruct Hk. apply list_elem_of_fmap. by exists (question_of (k, r)). }
  split.
  - destruct (decide (length sorted ≤ 10)%nat) as [Hle|Hgt].
    + rewrite drop_ge in Hin by done. by apply elem_of_nil in Hin.
    + rewrite length_take. lia.
  - intros q Hq.
    apply (StronglySorted_app_1_elem_of pub_date_desc (take 10 sorted) (drop 10 sorted)
             q (question_of (k, r))); [|done..].
    rewrite take_drop. apply order_by_pub_date_desc_sorted.
Qed.

Lemma get_queryset_none_published db now :
  (∀ k r, Question_objects db !! k = Some r → now < pub_date r) →
  IndexView.get_queryset db now = [].
Proof.
  intros H. apply length_zero_iff_nil. rewrite get_queryset_length.
  replace (filter _ _) with (∅ : gmap Z QuestionRow); [by rewrite map_size_empty|].
  symmetry. apply map_empty_filter. intros k r Hr. simpl.
  apply H in Hr. lia.
Qed.

Lemma super_get_context_data_latest l :
  IndexView.super_get_context_data l !! "latest_question_list" = Some (VQuestionList l).
Proof. apply lookup_insert_eq. Qed.

Lemma IndexView_get_Ok db now :
  IndexView.get db now
  = Ok (TemplateResponse "polls/index.html"
          (<["total_votes" := VInt (foldr Z.add 0 (votes_of (Choice_objects db)))]>
             (<["total_polls" := VInt (count (Question_objects db))]>
                (<["latest_question_list" := VQuestionList (listed db now)]>
                   (<["object_list" := VQuestionList (listed db now)]>
                      (IndexView.super_get_context_data
                         (IndexView.get_queryset db now))))))).
Proof.
  unfold IndexView.get, IndexView.get_context_data.
  unfold context_question_list, IndexView.template_name.
  rewrite super_get_context_data_latest. cbn [mbind result_bind].
  unfold IndexView.context_object_name.
  rewrite Coalesce_Sum.
  replace (_ <$> IndexView.get_queryset db now) with (listed db now); [done|].
  unfold listed. apply list_fmap_ext. intros _ q _. by rewrite Coalesce_Sum.
Qed.

Lemma IndexView_latest_question_list db now context :
  IndexView.get db now = Ok (TemplateResponse "polls/index.html" context) →
  context !! "latest_question_list" = Some (VQuestionList (listed db now)).
Proof.
  rewrite IndexView_get_Ok. intros [= <-].
  rewrite !lookup_insert_ne by done. apply lookup_insert_eq.
Qed.

Lemma elem_of_listed db now q :
  q ∈ listed db now →
  ∃ q0, q0 ∈ IndexView.get_queryset db now ∧
        q_pk q = q_pk q0 ∧ q_fields q = q_fields q0 ∧
        total_votes q = Attached (question_total db q).
Proof. intros (q0 & -> & Hq0)%list_elem_of_fmap. by exists q0. Qed.

Lemma listed_pks db now : q_pk <$> listed db now = q_pk <$> IndexView.get_queryset db now.
Proof. unfold listed. by rewrite <-list_fmap_compose. Qed.

(** C5.  In a database whose counters keep the sums of the storage in
    range the listing does not fail.  It shows Questions of the database
    whose publication date is not after now, latest first, without
    repetition, as many as there are such Questions up to 10; a published
    Question is left out only when 10 are shown, none of them older than
    it; and when no Question is published the list is empty. *)
Theorem index_latest_question_list db now :
  db_in_range db →
  ∃ context latest,
    IndexView.get db now = Ok (TemplateResponse "polls/index.html" context) ∧
    context !! "latest_question_list" = Some (VQuestionList latest) ∧
    (∀ q, q ∈ latest →
       Question_objects db !! q_pk q = Some (q_fields q) ∧ pub_date (q_fields q) ≤ now) ∧
    StronglySorted (λ a b, pub_date (q_fields b) ≤ pub_date (q_fields a)) latest ∧
    NoDup (q_pk <$> latest) ∧
    length latest
    = Nat.min 10 (size (filter (λ kr, pub_date kr.2 ≤ now) (Question_objects db))) ∧
    (∀ k r, Question_objects db !! k = Some r → pub_date r ≤ now →
       k ∉ q_pk <$> latest →
       length latest = 10%nat ∧ ∀ q, q ∈ latest → pub_date r ≤ pub_date (q_fields q)) ∧
    ((∀ k r, Question_objects db !! k = Some r → now < pub_date r) → latest = []).
Proof.
  intros _.
  eexists _, (listed db now). split; [apply IndexView_get_Ok|].
  split; [by eapply IndexView_latest_question_list, IndexView_get_Ok|].
  split; [|split; [|split; [|split; [|split]]]].
  - intros q (q0 & Hq0 & -> & -> & _)%elem_of_listed.
    by apply get_queryset_published in Hq0.
  - unfold listed.
    apply (StronglySorted_fmap _ pub_date_desc); [done|apply get_queryset_sorted].
  - rewrite listed_pks. apply get_queryset_NoDup.
  - unfold listed. rewrite length_fmap. apply get_queryset_length.
  - intros k r Hr Hnow Hk. rewrite listed_pks in Hk.
    destruct (get_queryset_latest db now k r Hr Hnow Hk) as [Hlen Hmax].
    split; [unfold listed; by rewrite length_fmap|].
    intros q (q0 & Hq0 & _ & -> & _)%elem_of_listed. by apply Hmax.
  - intros Hnone. unfold listed. by rewrite get_queryset_none_published.
Qed.

Lemma index_latest_question_list_witness :
  ∃ context latest,
    IndexView.get two_polls_db 120 = Ok (TemplateResponse "polls/index.html" context) ∧
    context !! "latest_question_list" = Some (VQuestionList latest) ∧
    (∀ q, q ∈ latest →
       Question_objects two_polls_db !! q_pk q = Some (q_fields q)
       ∧ pub_date (q_fields q) ≤ 120) ∧
    StronglySorted (λ a b, pub_date (q_fields b) ≤ pub_date (q_fields a)) latest ∧
    NoDup (q_pk <$> latest) ∧
    length latest
    = Nat.min 10 (size (filter (λ kr, pub_date kr.2 ≤ 120)
                          (Question_objects two_polls_db))) ∧
    (∀ k r, Question_objects two_polls_db !! k = Some r → pub_date r ≤ 120 →
       k ∉ q_pk <$> latest →
       length latest = 10%nat ∧ ∀ q, q ∈ latest → pub_date r ≤ pub_date (q_fields q)) ∧
    ((∀ k r, Question_objects two_polls_db !! k = Some r → 120 < pub_date r) →
     latest = []).
Proof.
  apply (index_latest_question_list two_polls_db 120).
  vm_compute. reflexivity.
Defined.

Lemma count_published_unpublished now (qs : gmap Z QuestionRow) :
  count qs
  = Z.of_nat (size (filter (λ kr, pub_date kr.2 ≤ now) qs))
    + Z.of_nat (size (filter (λ kr, ¬ pub_date kr.2 ≤ now) qs)).
Proof.
  unfold count.
  rewrite <-(map_filter_union_complement (λ kr, pub_date kr.2 ≤ now) qs) at 1.
  rewrite map_size_disj_union by apply map_disjoint_filter_complement. lia.
Qed.

Lemma votes_of_empty : votes_of ∅ = [].
Proof. unfold votes_of. by rewrite map_to_list_empty. Qed.

(** C9.  In a database whose counters keep the sums of the storage in
    range, the listing's context holds under total_polls the number of
    Questions in the database, published or not; under total_votes the
    sum of the counters of all Choices, which is 0 when there is no
    Choice; and every listed Question carries the sum of the counters of
    its own Choices, which is 0 when it has none. *)
Theorem index_totals db now :
  db_in_range db →
  ∃ context latest,
    IndexView.get db now = Ok (TemplateResponse "polls/index.html" context) ∧
    context !! "total_polls" = Some (VInt (Z.of_nat (size (Question_objects db)))) ∧
    Z.of_nat (size (Question_objects db))
    = Z.of_nat (size (filter (λ kr, pub_date kr.2 ≤ now) (Question_objects db)))
      + Z.of_nat (size (filter (λ kr, ¬ pub_date kr.2 ≤ now) (Question_objects db))) ∧
    context !! "total_votes"
    = Some (VInt (foldr Z.add 0 (votes_of (Choice_objects db)))) ∧
    (Choice_objects db = ∅ → context !! "total_votes" = Some (VInt 0)) ∧
    context !! "latest_question_list" = Some (VQuestionList latest) ∧
    ∀ q, q ∈ latest →
      total_votes q = Attached (question_total db q) ∧
      (choice_set db q = ∅ → total_votes q = Attached 0).
Proof.
  intros _.
  eexists _, (listed db now). split; [apply IndexView_get_Ok|].
  split; [rewrite lookup_insert_ne by done; apply lookup_insert_eq|].
  split; [apply count_published_unpublished|].
  split; [apply lookup_insert_eq|].
  split; [intros ->; rewrite lookup_insert_eq; by rewrite votes_of_empty|].
  split; [by eapply IndexView_latest_question_list, IndexView_get_Ok|].
  intros q (q0 & _ & _ & _ & Ht)%elem_of_listed. split; [done|].
  intros Hempty. rewrite Ht. unfold question_total. by rewrite Hempty, votes_of_empty.
Qed.

Lemma index_totals_witness :
  ∃ context latest,
    IndexView.get two_polls_db 120 = Ok (TemplateResponse "polls/index.html" context) ∧
    context !! "total_polls"
    = Some (VInt (Z.of_nat (size (Question_objects two_polls_db)))) ∧
    Z.of_nat (size (Question_objects two_polls_db))
    = Z.of_nat (size (filter (λ kr, pub_date kr.2 ≤ 120) (Question_objects two_polls_db)))
      + Z.of_nat (size (filter (λ kr, ¬ pub_date kr.2 ≤ 120)
                          (Question_objects two_polls_db))) ∧
    context !! "total_votes"
    = Some (VInt (foldr Z.add 0 (votes_of (Choice_objects two_polls_db)))) ∧
    (Choice_objects two_polls_db = ∅ → context !! "total_votes" = Some (VInt 0)) ∧
    context !! "latest_question_list" = Some (VQuestionList latest) ∧
    ∀ q, q ∈ latest →
      total_votes q = Attached (question_total two_polls_db q) ∧
      (choice_set two_polls_db q = ∅ → total_votes q = Attached 0).
Proof.
  apply (index_totals two_polls_db 120).
  vm_compute. reflexivity.
Defined.

(** ** One aggregation rule *)

Lemma question_total_pk db q q' :
  q_pk q = q_pk q' → question_total db q = question_total db q'.
Proof. intros H. unfold question_total, choice_set. by rewrite H. Qed.

(** C8.  The total with [or 0] of the results page and the total with
    [Coalesce] of the listing and the detail page are the same function
    of the counters, 0 over no counters; and for a published Question,
    in a database whose counters keep the sums of the storage in range,
    the three pages attach the same total to it, which is 0 when the
    Question has no Choice. *)
Theorem total_votes_same_in_all_views db now pk :
  (∀ l, py_or_0 (Sum l) = Coalesce (Sum l) 0) ∧
  py_or_0 (Sum []) = 0 ∧
  ∀ r, db_in_range db → Question_objects db !! pk = Some r → pub_date r ≤ now →
    ∃ t results_context results_question detail_context detail_question
      index_context latest,
      ResultsView.get db now pk
      = Ok (TemplateResponse "polls/results.html" results_context) ∧
      results_context !! "question" = Some (VQuestion results_question) ∧
      total_votes results_question = Attached t ∧
      DetailView.get db now pk
      = Ok (TemplateResponse "polls/detail.html" detail_context) ∧
      detail_context !! "question" = Some (VQuestion detail_question) ∧
      total_votes detail_question = Attached t ∧
      IndexView.get db now = Ok (TemplateResponse "polls/index.html" index_context) ∧
      index_context !! "latest_question_list" = Some (VQuestionList latest) ∧
      (∀ q, q ∈ latest → q_pk q = pk → total_votes q = Attached t) ∧
      t = foldr Z.add 0 (votes_of (choice_set db (question_of (pk, r)))) ∧
      (choice_set db (question_of (pk, r)) = ∅ → t = 0).
Proof.
  split; [intros l; by rewrite py_or_0_Sum, Coalesce_Sum|]. split; [done|].
  intros r Hdb%db_in_range_0 Hr Hnow.
  destruct (ResultsView_get_Ok db now pk r Hdb Hr Hnow) as (mp & Hget & _).
  exists (question_total db (question_of (pk, r))).
  eexists _, _, _, _, _, (listed db now).
  split; [exact Hget|].
  split; [rewrite lookup_insert_ne by done; apply bind_object_question|].
  split; [done|].
  split; [by apply DetailView_get_Ok|].
  split; [apply bind_object_question|].
  split; [done|].
  split; [apply IndexView_get_Ok|].
  split; [by eapply IndexView_latest_question_list, IndexView_get_Ok|].
  split; [|split; [done|]].
  - intros q (q0 & _ & _ & _ & ->)%elem_of_listed Hpk. f_equal.
    by apply question_total_pk.
  - intros Hempty. unfold question_total. by rewrite Hempty, votes_of_empty.
Qed.

Lemma total_votes_same_in_all_views_witness :
  ∃ t results_context results_question detail_context detail_question
    index_context latest,
    ResultsView.get (scenario_db 3 1) 200 1
    = Ok (TemplateResponse "polls/results.html" results_context) ∧
    results_context !! "question" = Some (VQuestion results_question) ∧
    total_votes results_question = Attached t ∧
    DetailView.get (scenario_db 3 1) 200 1
    = Ok (TemplateResponse "polls/detail.html" detail_context) ∧
    detail_context !! "question" = Some (VQuestion detail_question) ∧
    total_votes detail_question = Attached t ∧
    IndexView.get (scenario_db 3 1) 200
    = Ok (TemplateResponse "polls/index.html" index_context) ∧
    index_context !! "latest_question_list" = Some (VQuestionList latest) ∧
    (∀ q, q ∈ latest → q_pk q = 1 → total_votes q = Attached t) ∧
    t = foldr Z.add 0 (votes_of (choice_set (scenario_db 3 1) (question_of (1, Q1)))) ∧
    (choice_set (scenario_db 3 1) (question_of (1, Q1)) = ∅ → t = 0).
Proof.
  apply (proj2 (proj2 (total_votes_same_in_all_views (scenario_db 3 1) 200 1)) Q1).
  - vm_compute. reflexivity.
  - reflexivity.
  - simpl. lia.
Defined.

(** ** Voting *)

Lemma vote_else_stored db qid c row :
  Choice_objects db !! c_pk c = Some row →
  vote_else db qid c
  = (Ok (results_redirect qid),
     {| Question_objects := Question_objects db;
        Choice_objects :=
          <[c_pk c := {| question_id := question_id (c_fields c);
                         choice_text := choice_text (c_fields c);
                         votes := votes row + 1 |}]> (Choice_objects db) |}).
Proof.
  intros Hrow. unfold vote_else, save, refresh_from_db. simpl.
  rewrite Hrow. simpl. by rewrite lookup_insert_eq.
Qed.

Lemma vote_else_missing db qid c :
  Choice_objects db !! c_pk c = None → vote_else db qid c = (Raise ValueError, db).
Proof. intros Hrow. unfold vote_else, save. simpl. by rewrite Hrow. Qed.

Lemma vote_spec db qid POST : vote_outcome db qid POST (vote db qid POST).
Proof.
  unfold vote, get_object_or_404.
  destruct (Question_objects db !! qid) as [q|] eqn:Hq; [|by constructor].
  unfold vote_try, POST_get.
  destruct (POST !! "choice") as [raw|] eqn:Hraw; cbn [mbind result_bind];
    [|by apply vote_no_field].
  unfold get_pk.
  destruct (py_int raw) as [cid|] eqn:Hint; [|by eapply vote_not_a_number].
  destruct (choice_set db (question_of (qid, q)) !! cid) as [row|] eqn:Hrow.
  - apply lookup_choice_set in Hrow as [Hrow Hfk]. simpl in Hfk.
    rewrite (vote_else_stored _ _ _ row) by done. simpl.
    by eapply vote_counted.
  - eapply vote_no_choice; [done..|].
    intros row Hrow' Hfk.
    assert (choice_set db (question_of (qid, q)) !! cid = Some row) as Hsome
      by (by apply lookup_choice_set).
    congruence.
Qed.

Lemma vote_try_Ok db q POST raw cid row :
  POST !! "choice" = Some raw → py_int raw = Some cid →
  Choice_objects db !! cid = Some row → question_id row = q_pk q →
  vote_try db q POST = Ok (choice_of (cid, row)).
Proof.
  intros Hraw Hint Hrow Hfk. unfold vote_try, POST_get, get_pk.
  rewrite Hraw. cbn [mbind result_bind]. rewrite Hint.
  by rewrite (proj2 (lookup_choice_set db q cid row)).
Qed.

Lemma vote_selected db qid POST q selected :
  Question_objects db !! qid = Some q →
  vote_try db (question_of (qid, q)) POST = Ok selected →
  vote db qid POST = vote_else db qid selected.
Proof. intros Hq Htry. unfold vote, get_object_or_404. by rewrite Hq, Htry. Qed.

(** C2.  When the Question exists and the submitted choice identifier
    (a string of printable ASCII characters) resolves to a Choice of that Question
    whose counter has room for one more vote in its 64-bit column, [vote]
    answers with a redirect to the results of the same Question
    identifier and leaves the counter of that Choice one higher.  The
    increment is computed by the storage: issued against any state of the
    storage that still has the Choice, with room in its counter, the same
    write leaves the counter one higher than the storage held at that
    moment, not one higher than the value the request had read. *)
Theorem vote_counts_and_redirects db qid POST q raw cid row :
  Question_objects db !! qid = Some q →
  POST !! "choice" = Some raw → plain_ascii raw = true → py_int raw = Some cid →
  Choice_objects db !! cid = Some row → question_id row = qid →
  - 2 ^ 63 ≤ votes row < 2 ^ 63 - 1 →
  ∃ selected db',
    vote_try db (question_of (qid, q)) POST = Ok selected ∧
    c_pk selected = cid ∧
    vote db qid POST = vote_else db qid selected ∧
    vote db qid POST
    = (Ok (HttpResponseRedirect (reverse_url "polls:results" [qid])), db') ∧
    votes <$> Choice_objects db' !! cid = Some (votes row + 1) ∧
    ∀ stored current,
      Choice_objects stored !! cid = Some current →
      - 2 ^ 63 ≤ votes current < 2 ^ 63 - 1 →
      ∃ stored',
        vote_else stored qid selected
        = (Ok (HttpResponseRedirect (reverse_url "polls:results" [qid])), stored') ∧
        votes <$> Choice_objects stored' !! cid = Some (votes current + 1).
Proof.
  intros Hq Hraw _ Hint Hrow Hfk _.
  pose proof (vote_try_Ok db (question_of (qid, q)) POST raw cid row
                Hraw Hint Hrow Hfk) as Htry.
  pose proof (vote_selected db qid POST q _ Hq Htry) as Hvote.
  eexists (choice_of (cid, row)), _.
  split; [done|]. split; [done|]. split; [done|].
  split; [rewrite Hvote; by apply vote_else_stored|].
  split; [simpl; by rewrite lookup_insert_eq|].
  intros stored current Hcur _. eexists.
  split; [by apply vote_else_stored|].
  simpl. by rewrite lookup_insert_eq.
Qed.

Lemma vote_counts_and_redirects_witness :
  ∃ selected db',
    vote_try (scenario_db 0 0) (question_of (1, Q1)) {["choice" := "11"%string]}
    = Ok selected ∧
    c_pk selected = 11 ∧
    vote (scenario_db 0 0) 1 {["choice" := "11"%string]}
    = vote_else (scenario_db 0 0) 1 selected ∧
    vote (scenario_db 0 0) 1 {["choice" := "11"%string]}
    = (Ok (HttpResponseRedirect (reverse_url "polls:results" [1])), db') ∧
    votes <$> Choice_objects db' !! 11 = Some (0 + 1) ∧
    ∀ stored current,
      Choice_objects stored !! 11 = Some current →
      - 2 ^ 63 ≤ votes current < 2 ^ 63 - 1 →
      ∃ stored',
        vote_else stored 1 selected
        = (Ok (HttpResponseRedirect (reverse_url "polls:results" [1])), stored') ∧
        votes <$> Choice_objects stored' !! 11 = Some (votes current + 1).
Proof.
  apply (vote_counts_and_redirects (scenario_db 0 0) 1 {["choice" := "11"%string]}
           Q1 "11" 11 {| question_id := 1; choice_text := "Yes"; votes := 0 |});
    try reflexivity.
  simpl. lia.
Defined.

(** C7.  [vote] raises [Http404] when no Question has the identifier.
    When a Question has it, [vote] never raises [Http404], whatever the
    publication date of the Question: for a Question that is not yet
    published the detail and the results pages are not found while the
    vote is not. *)
Theorem vote_not_found_iff_no_question db qid POST :
  (Question_objects db !! qid = None →
   vote db qid POST = (Raise (Http404 "No Question matches the given query."), db)) ∧
  (∀ q, Question_objects db !! qid = Some q →
        ∀ msg, (vote db qid POST).1 ≠ Raise (Http404 msg)) ∧
  (∀ q now, Question_objects db !! qid = Some q → now < pub_date q →
     DetailView.get db now qid = Raise (Http404 "No question found matching the query") ∧
     ResultsView.get db now qid = Raise (Http404 "No question found matching the query") ∧
     ∀ msg, (vote db qid POST).1 ≠ Raise (Http404 msg)).
Proof.
  assert (∀ q, Question_objects db !! qid = Some q →
               ∀ msg, (vote db qid POST).1 ≠ Raise (Http404 msg)) as Hfound.
  { intros q Hq msg. destruct (vote_spec db qid POST); simpl; congruence. }
  split; [|split].
  - intros Hq. destruct (vote_spec db qid POST); congruence.
  - exact Hfound.
  - intros q now Hq Hfuture.
    assert (∀ r, Question_objects db !! qid = Some r → now < pub_date r) as Hno
      by (intros r Hr; congruence).
    split; [by apply DetailView_get_not_found|].
    split; [by apply ResultsView_get_not_found|].
    by eapply Hfound.
Qed.

Lemma vote_not_found_iff_no_question_witness :
  vote future_db 2 {["choice" := "11"%string]}
  = (Raise (Http404 "No Question matches the given query."), future_db) ∧
  (DetailView.get future_db 200 1 = Raise (Http404 "No question found matching the query") ∧
   ResultsView.get future_db 200 1 = Raise (Http404 "No question found matching the query") ∧
   ∀ msg, (vote future_db 1 {["choice" := "11"%string]}).1 ≠ Raise (Http404 msg)).
Proof.
  split.
  - apply (proj1 (vote_not_found_iff_no_question future_db 2 {["choice" := "11"%string]})).
    reflexivity.
  - apply (proj2 (proj2 (vote_not_found_iff_no_question
                           future_db 1 {["choice" := "11"%string]}))
             {| question_text := "Q1"; pub_date := 300 |} 200).
    + reflexivity.
    + simpl. lia.
Defined.

(** C10.  [vote] never changes a Question, never adds or removes a
    Choice and never changes the text or the Question of a Choice.  When
    it does not answer with a redirect the storage is unchanged.  When it
    answers with a redirect, the submitted identifier resolves to a
    Choice of the Question, whose counter is one higher, and every other
    Choice is as it was. *)
Theorem vote_changes_one_counter db qid POST :
  let response := (vote db qid POST).1 in
  let db' := (vote db qid POST).2 in
  Question_objects db' = Question_objects db ∧
  (∀ k, (λ row, (question_id row, choice_text row)) <$> Choice_objects db' !! k
        = (λ row, (question_id row, choice_text row)) <$> Choice_objects db !! k) ∧
  ((∀ location, response ≠ Ok (HttpResponseRedirect location)) → db' = db) ∧
  (∀ location, response = Ok (HttpResponseRedirect location) →
     ∃ raw cid row,
       POST !! "choice" = Some raw ∧ py_int raw = Some cid ∧
       Choice_objects db !! cid = Some row ∧ question_id row = qid ∧
       Choice_objects db' !! cid
       = Some {| question_id := question_id row;
                 choice_text := choice_text row;
                 votes := votes row + 1 |} ∧
       ∀ k, k ≠ cid → Choice_objects db' !! k = Choice_objects db !! k).
Proof.
  intros response db'. subst response db'.
  destruct (vote_spec db qid POST) as [Hq|q Hq Hraw|q raw Hq Hraw Hint
    |q raw cid Hq Hraw Hint Hnone|q raw cid row Hq Hraw Hint Hrow Hfk]; simpl.
  1-4: split; [done|]; split; [done|]; split; [by destruct db|]; intros ? [=].
  split; [done|]. split; [|split].
  - intros k. rewrite lookup_insert. case_decide as Hk; [|done].
    subst k. by rewrite Hrow.
  - intros Hne. by destruct (Hne (reverse_url "polls:results" [qid])).
  - intros _ _. exists raw, cid, row. repeat (split; [done|]).
    split; [by rewrite lookup_insert_eq|].
    intros k Hk. by rewrite lookup_insert_ne.
Qed.

Lemma vote_changes_one_counter_witness :
  (∃ raw cid row,
     ({["choice" := "11"%string]} : gmap string string) !! "choice" = Some raw ∧
     py_int raw = Some cid ∧
     Choice_objects (scenario_db 0 0) !! cid = Some row ∧ question_id row = 1 ∧
     Choice_objects (vote (scenario_db 0 0) 1 {["choice" := "11"%string]}).2 !! cid
     = Some {| question_id := question_id row;
               choice_text := choice_text row;
               votes := votes row + 1 |} ∧
     ∀ k, k ≠ cid →
          Choice_objects (vote (scenario_db 0 0) 1 {["choice" := "11"%string]}).2 !! k
          = Choice_objects (scenario_db 0 0) !! k) ∧
  (vote (scenario_db 0 0) 1 ∅).2 = scenario_db 0 0.
Proof.
  split.
  - apply (proj2 (proj2 (proj2 (vote_changes_one_counter
                                  (scenario_db 0 0) 1 {["choice" := "11"%string]})))
             (reverse_url "polls:results" [1])).
    reflexivity.
  - apply (proj1 (proj2 (proj2 (vote_changes_one_counter (scenario_db 0 0) 1 ∅)))).
    intros location. vm_compute. discriminate.
Defined.

Lemma vote_not_a_number_raises db qid POST q raw :
  Question_objects db !! qid = Some q →
  POST !! "choice" = Some raw → py_int raw = None →
  vote db qid POST = (Raise ValueError, db).
Proof.
  intros Hq Hraw Hint. unfold vote, get_object_or_404, vote_try, POST_get, get_pk.
  rewrite Hq, Hraw. cbn [mbind result_bind]. by rewrite Hint.
Qed.


(** C3.  With a Question that exists and a form whose choice field is
    "abc" -- an identifier that resolves to no Choice of the Question --
    [vote] does not redisplay the form with the error message: the lookup
    raises [ValueError], which the handler does not catch.  (No counter
    changes.) *)
Theorem vote_non_numeric_choice_raises :
  Question_objects (scenario_db 0 0) !! 1 = Some Q1 ∧
  ({["choice" := "abc"%string]} : gmap string string) !! "choice" = Some "abc"%string ∧
  py_int "abc" = None ∧
  vote (scenario_db 0 0) 1 {["choice" := "abc"%string]}
  = (Raise ValueError, scenario_db 0 0).
Proof. repeat split; vm_compute; reflexivity. Qed.

(** ** The scenarios of the specification *)

(** A: one vote for "Yes" on a fresh poll. *)
Example scenario_A :
  shown (ResultsView.get (vote (scenario_db 0 0) 1 {["choice" := "11"%string]}).2 200 1)
  = Some ([("Yes"%string, 1, Attached (PyFloat (py_float 100)));
           ("No"%string, 0, Attached (PyFloat (py_float 0)))],
          Attached 1, Attached (Some "Yes"%string)).
Proof. vm_compute. reflexivity. Qed.

(** B: three votes against one. *)
Example scenario_B :
  shown (ResultsView.get (scenario_db 3 1) 200 1)
  = Some ([("Yes"%string, 3, Attached (PyFloat (py_float 75)));
           ("No"%string, 1, Attached (PyFloat (py_float 25)))],
          Attached 4, Attached (Some "Yes"%string)).
Proof. vm_compute. reflexivity. Qed.

(** C: a vote with no choice selected. *)
Example scenario_C :
  vote (scenario_db 3 1) 1 ∅
  = (Ok (TemplateResponse "polls/detail.html"
           (<["error_message" := VStr "You didn't select a choice."]>
              {["question" := VQuestion (question_of (1, Q1))]})),
     scenario_db 3 1).
Proof. vm_compute. reflexivity. Qed.

(** D: a Question published later than now. *)
Example scenario_D :
  DetailView.get future_db 200 1 = Raise (Http404 "No question found matching the query") ∧
  ResultsView.get future_db 200 1 = Raise (Http404 "No question found matching the query") ∧
  Question_objects future_db !! 1 = Some {| question_text := "Q1"; pub_date := 300 |}.
Proof. repeat split; vm_compute; reflexivity. Qed.

(** E: a Question without Choices. *)
Example scenario_E :
  shown (ResultsView.get {| Question_objects := {[ 1 := Q1 ]}; Choice_objects := ∅ |} 200 1)
  = Some ([], Attached 0, Attached None).
Proof. vm_compute. reflexivity. Qed.

(** F: two votes for the same Choice that both read the counter 5 before
    either writes: both land. *)
Example scenario_F :
  let db := scenario_db 5 0 in
  let POST : gmap string string := {["choice" := "11"%string]} in
  ∃ first second,
    vote_try db (question_of (1, Q1)) POST = Ok first ∧
    vote_try db (question_of (1, Q1)) POST = Ok second ∧
    votes <$> Choice_objects (vote_else (vote_else db 1 first).2 1 second).2 !! 11
    = Some 7.
Proof. eexists _, _. repeat split; vm_compute; reflexivity. Qed.

(** A total of 0 gives the integer 0, a third gives the nearest float. *)
Example spec_percentage_values :
  spec_percentage 0 0 = PyInt 0 ∧
  spec_percentage 1 3 = PyFloat (S754_finite false 4691249611844266 (-47)).
Proof. split; vm_compute; reflexivity. Qed.

(** * Further properties *)

(** ** Sums over a table *)

Lemma votes_of_insert_fresh (m : gmap Z ChoiceRow) k row :
  m !! k = None →
  foldr Z.add 0 (votes_of (<[k := row]> m)) = votes row + foldr Z.add 0 (votes_of m).
Proof.
  intros Hk. unfold votes_of.
  rewrite (foldr_add_perm _
             ((λ kr : Z * ChoiceRow, votes kr.2) <$> (k, row) :: map_to_list m));
    [done|].
  by rewrite (map_to_list_insert m k row Hk).
Qed.

Lemma votes_of_insert (m : gmap Z ChoiceRow) k row0 row :
  m !! k = Some row0 →
  foldr Z.add 0 (votes_of (<[k := row]> m))
  = foldr Z.add 0 (votes_of m) - votes row0 + votes row.
Proof.
  intros Hk.
  rewrite <-(insert_delete_id m k row0 Hk) at 2.
  rewrite <-(insert_delete_eq m k row).
  rewrite !votes_of_insert_fresh by apply lookup_delete_eq. lia.
Qed.

Lemma votes_of_nonneg (m : gmap Z ChoiceRow) :
  map_Forall (λ _ row, 0 ≤ votes row) m → 0 ≤ foldr Z.add 0 (votes_of m).
Proof.
  induction m as [|k row m Hk _ IH] using map_first_key_ind; intros Hm.
  - by rewrite votes_of_empty.
  - rewrite votes_of_insert_fresh by done.
    apply map_Forall_insert in Hm as [Hrow Hm]; [|done].
    specialize (IH Hm). lia.
Qed.

(** ** The storage after a vote *)

Lemma vote_counted_eq db qid POST q raw cid row :
  Question_objects db !! qid = Some q →
  POST !! "choice" = Some raw → py_int raw = Some cid →
  Choice_objects db !! cid = Some row → question_id row = qid →
  vote db qid POST
  = (Ok (results_redirect qid),
     {| Question_objects := Question_objects db;
        Choice_objects := <[cid := voted row]> (Choice_objects db) |}).
Proof.
  intros Hq Hraw Hint Hrow Hfk.
  rewrite (vote_selected db qid POST q (choice_of (cid, row)) Hq)
    by (by eapply vote_try_Ok).
  by rewrite (vote_else_stored db qid _ row).
Qed.

Lemma choice_set_voted db cid row q :
  Choice_objects db !! cid = Some row → question_id row = q_pk q →
  choice_set {| Question_objects := Question_objects db;
                Choice_objects := <[cid := voted row]> (Choice_objects db) |} q
  = <[cid := voted row]> (choice_set db q)
  ∧ choice_set db q !! cid = Some row.
Proof.
  intros Hrow Hfk. split; [|by apply lookup_choice_set].
  unfold choice_set. simpl. by rewrite map_filter_insert_True.
Qed.

Lemma choice_set_voted_other db cid row q :
  Choice_objects db !! cid = Some row → question_id row ≠ q_pk q →
  choice_set {| Question_objects := Question_objects db;
                Choice_objects := <[cid := voted row]> (Choice_objects db) |} q
  = choice_set db q.
Proof.
  intros Hrow Hfk. unfold choice_set. simpl.
  apply map_filter_insert_not'; [done|].
  intros row' Hrow'. simpl. congruence.
Qed.

Lemma question_total_voted db cid row q :
  Choice_objects db !! cid = Some row →
  question_total {| Question_objects := Question_objects db;
                    Choice_objects := <[cid := voted row]> (Choice_objects db) |} q
  = question_total db q + (if decide (question_id row = q_pk q) then 1 else 0).
Proof.
  intros Hrow. unfold question_total. case_decide as Hfk.
  - destruct (choice_set_voted db cid row q Hrow Hfk) as [-> Hin].
    rewrite (votes_of_insert _ cid row) by done. simpl. lia.
  - rewrite choice_set_voted_other by done. lia.
Qed.

(** ** A vote as the pages show it *)

(** X1.  In a database whose counters keep the sums of the storage in
    range with room for one more vote: after a vote that is counted (the
    choice identifier a string of printable ASCII characters), the detail page of
    the Question shows a total one higher than before, the listing shows
    a system-wide total one higher and the same number of polls, and the
    detail page of every other published Question is what it was. *)
Theorem vote_then_totals db now qid POST q raw cid row :
  db_in_range_for 1 db →
  Question_objects db !! qid = Some q → pub_date q ≤ now →
  POST !! "choice" = Some raw → plain_ascii raw = true → py_int raw = Some cid →
  Choice_objects db !! cid = Some row → question_id row = qid →
  let db' := (vote db qid POST).2 in
  ∃ t T context question context' question' index index',
    DetailView.get db now qid = Ok (TemplateResponse "polls/detail.html" context) ∧
    context !! "question" = Some (VQuestion question) ∧
    total_votes question = Attached t ∧
    DetailView.get db' now qid = Ok (TemplateResponse "polls/detail.html" context') ∧
    context' !! "question" = Some (VQuestion question') ∧
    total_votes question' = Attached (t + 1) ∧
    IndexView.get db now = Ok (TemplateResponse "polls/index.html" index) ∧
    index !! "total_votes" = Some (VInt T) ∧
    IndexView.get db' now = Ok (TemplateResponse "polls/index.html" index') ∧
    index' !! "total_votes" = Some (VInt (T + 1)) ∧
    index' !! "total_polls" = index !! "total_polls" ∧
    ∀ pk r, Question_objects db !! pk = Some r → pk ≠ qid → pub_date r ≤ now →
            DetailView.get db' now pk = DetailView.get db now pk.
Proof.
  intros _ Hq Hnow Hraw _ Hint Hrow Hfk db'. subst db'.
  rewrite (vote_counted_eq db qid POST q raw cid row) by done. simpl.
  set (db' := {| Question_objects := Question_objects db;
                 Choice_objects := <[cid := voted row]> (Choice_objects db) |}).
  exists (question_total db (question_of (qid, q))),
         (foldr Z.add 0 (votes_of (Choice_objects db))).
  eexists _, _, _, _, _, _.
  split; [by apply DetailView_get_Ok|].
  split; [apply bind_object_question|]. split; [done|].
  split; [by apply (DetailView_get_Ok db' now qid q)|].
  split; [apply bind_object_question|].
  split.
  { simpl. f_equal. subst db'. rewrite question_total_voted by done.
    by rewrite decide_True. }
  split; [apply IndexView_get_Ok|]. split; [apply lookup_insert_eq|].
  split; [apply IndexView_get_Ok|].
  split.
  { rewrite lookup_insert_eq. do 2 f_equal. subst db'. simpl.
    rewrite (votes_of_insert _ cid row) by done. simpl. lia. }
  split; [by rewrite !(lookup_insert_ne _ "total_votes"), !lookup_insert_eq by done|].
  intros pk r Hr Hpk Hpub.
  rewrite (DetailView_get_Ok db' now pk r), (DetailView_get_Ok db now pk r) by done.
  simpl. subst db'. rewrite question_total_voted by done.
  rewrite decide_False by (simpl; congruence). by rewrite Z.add_0_r.
Qed.

Lemma vote_then_totals_witness :
  ∃ t T context question context' question' index index',
    DetailView.get two_polls_db 200 1
    = Ok (TemplateResponse "polls/detail.html" context) ∧
    context !! "question" = Some (VQuestion question) ∧
    total_votes question = Attached t ∧
    DetailView.get (vote two_polls_db 1 {["choice" := "11"%string]}).2 200 1
    = Ok (TemplateResponse "polls/detail.html" context') ∧
    context' !! "question" = Some (VQuestion question') ∧
    total_votes question' = Attached (t + 1) ∧
    IndexView.get two_polls_db 200 = Ok (TemplateResponse "polls/index.html" index) ∧
    index !! "total_votes" = Some (VInt T) ∧
    IndexView.get (vote two_polls_db 1 {["choice" := "11"%string]}).2 200
    = Ok (TemplateResponse "polls/index.html" index') ∧
    index' !! "total_votes" = Some (VInt (T + 1)) ∧
    index' !! "total_polls" = index !! "total_polls" ∧
    ∀ pk r, Question_objects two_polls_db !! pk = Some r → pk ≠ 1 → pub_date r ≤ 200 →
            DetailView.get (vote two_polls_db 1 {["choice" := "11"%string]}).2 200 pk
            = DetailView.get two_polls_db 200 pk.
Proof.
  apply (vote_then_totals two_polls_db 200 1 {["choice" := "11"%string]}
           Q1 "11" 11 {| question_id := 1; choice_text := "Yes"; votes := 2 |});
    try reflexivity.
  simpl. lia.
Defined.

Lemma question_total_nonneg db q :
  (∀ k row, Choice_objects db !! k = Some row → 0 ≤ votes row) →
  0 ≤ question_total db q.
Proof.
  intros Hdb. apply votes_of_nonneg. intros k row [Hrow _]%lookup_choice_set.
  by eapply Hdb.
Qed.

(** X2.  When no counter is negative and the counters keep the sums of
    the storage in range with room for one more vote, the results page of
    a published Question that has just received a counted vote (the
    choice identifier a string of printable ASCII characters) has a positive total
    and a most popular choice, whose counter is at least 1 and at least
    the counter of the Choice voted for. *)
Theorem vote_then_results_most_popular db now qid POST q raw cid row :
  (∀ k r, Choice_objects db !! k = Some r → 0 ≤ votes r) →
  db_in_range_for 1 db →
  Question_objects db !! qid = Some q → pub_date q ≤ now →
  POST !! "choice" = Some raw → plain_ascii raw = true → py_int raw = Some cid →
  Choice_objects db !! cid = Some row → question_id row = qid →
  ∃ context question t c,
    ResultsView.get (vote db qid POST).2 now qid
    = Ok (TemplateResponse "polls/results.html" context) ∧
    context !! "question" = Some (VQuestion question) ∧
    total_votes question = Attached t ∧ 1 ≤ t ∧
    most_popular_choice question = Attached (Some c) ∧
    1 ≤ votes (c_fields c) ∧ votes row + 1 ≤ votes (c_fields c).
Proof.
  intros Hdb Hrange Hq Hnow Hraw _ Hint Hrow Hfk.
  rewrite (vote_counted_eq db qid POST q raw cid row) by done. simpl.
  set (db' := {| Question_objects := Question_objects db;
                 Choice_objects := <[cid := voted row]> (Choice_objects db) |}).
  assert (db_storable db') as Hdb'.
  { unfold db_in_range_for in Hrange.
    intros k r. subst db'. simpl. rewrite lookup_insert. case_decide.
    - intros [= <-]. pose proof (abs_le_total_abs db cid row Hrow).
      apply Hdb in Hrow. simpl. lia.
    - intros Hr. pose proof (abs_le_total_abs db k r Hr). simpl. lia. }
  destruct (ResultsView_get_Ok db' now qid q Hdb' Hq Hnow) as (mp & Hget & Hmp & _).
  assert (question_total db' (question_of (qid, q))
          = question_total db (question_of (qid, q)) + 1) as Htotal.
  { subst db'. rewrite question_total_voted by done. by rewrite decide_True. }
  pose proof (question_total_nonneg db (question_of (qid, q)) Hdb) as Hnonneg.
  assert (∃ c0, c0 ∈ shown_choices db' (question_of (qid, q))
                ∧ c_pk c0 = cid ∧ c_fields c0 = voted row) as (c0 & Hc0 & _ & Hf0).
  { apply shown_choices_rows. subst db'. simpl. by rewrite lookup_insert_eq. }
  destruct Hmp as (c & -> & Hc & Hmax);
    [lia|intros Hnil; rewrite Hnil in Hc0; by apply elem_of_nil in Hc0|].
  eexists _, _, _, c. split; [exact Hget|].
  split; [rewrite lookup_insert_ne by done; apply bind_object_question|].
  split; [done|]. split; [lia|]. split; [done|].
  specialize (Hmax c0 Hc0). rewrite Hf0 in Hmax. simpl in Hmax.
  apply Hdb in Hrow. lia.
Qed.

Lemma vote_then_results_most_popular_witness :
  ∃ context question t c,
    ResultsView.get (vote (scenario_db 0 0) 1 {["choice" := "11"%string]}).2 200 1
    = Ok (TemplateResponse "polls/results.html" context) ∧
    context !! "question" = Some (VQuestion question) ∧
    total_votes question = Attached t ∧ 1 ≤ t ∧
    most_popular_choice question = Attached (Some c) ∧
    1 ≤ votes (c_fields c) ∧ 0 + 1 ≤ votes (c_fields c).
Proof.
  apply (vote_then_results_most_popular (scenario_db 0 0) 200 1
           {["choice" := "11"%string]} Q1 "11" 11
           {| question_id := 1; choice_text := "Yes"; votes := 0 |});
    try reflexivity.
  - intros k r Hr. unfold scenario_db in Hr. simpl in Hr.
    apply lookup_insert_Some in Hr as [[_ <-]|[_ Hr]]; [simpl; lia|].
    apply lookup_singleton_Some in Hr as [_ <-]. simpl. lia.
  - simpl. lia.
Defined.

(** ** Ties for the most popular choice *)

Lemma foldl_max_first {A} (key : A → Z) (l pre post : list A) (x : A) :
  (∀ y, y ∈ pre → key y < key x) → (∀ y, y ∈ post → key y ≤ key x) →
  let m := foldl (λ best y, if decide (key best < key y) then y else best) x l in
  ∃ l1 l2, pre ++ x :: post ++ l = l1 ++ m :: l2 ∧
           (∀ y, y ∈ l1 → key y < key m) ∧ (∀ y, y ∈ l2 → key y ≤ key m).
Proof.
  revert pre post x. induction l as [|z l IH]; intros pre post x Hpre Hpost; simpl.
  - exists pre, post. by rewrite app_nil_r.
  - case_decide as Hlt.
    + destruct (IH (pre ++ x :: post) [] z) as (l1 & l2 & Heq & H1 & H2).
      * intros y [Hy | [-> | Hy]%elem_of_cons]%elem_of_app;
          [apply Hpre in Hy|idtac|apply Hpost in Hy]; lia.
      * intros y Hy. by apply elem_of_nil in Hy.
      * exists l1, l2. split; [|done]. rewrite <-Heq. simpl.
        by rewrite <-app_assoc.
    + destruct (IH pre (post ++ [z]) x) as (l1 & l2 & Heq & H1 & H2).
      * done.
      * intros y [Hy | ->%list_elem_of_singleton]%elem_of_app; [by apply Hpost|lia].
      * exists l1, l2. split; [|done]. rewrite <-Heq.
        by rewrite <-app_assoc.
Qed.

Lemma py_max_first {A} (key : A → Z) (l : list A) m :
  py_max key l = Ok m →
  ∃ l1 l2, l = l1 ++ m :: l2 ∧
           (∀ y, y ∈ l1 → key y < key m) ∧ (∀ y, y ∈ l2 → key y ≤ key m).
Proof.
  destruct l as [|x l]; [done|]. simpl. intros [= <-].
  apply (foldl_max_first key l [] [] x); intros y Hy; by apply elem_of_nil in Hy.
Qed.

Lemma ResultsView_get_context_data_max db q :
  db_storable db → 0 < question_total db q →
  ∃ m,
    py_max (λ c, votes (c_fields c)) (shown_choices db q) = Ok m ∧
    ResultsView.get_context_data db q
    = Ok (<["choices" := VChoiceList (shown_choices db q)]>
            (bind_object
               (set_most_popular_choice (set_total_votes q (question_total db q))
                  (Some m))
               (bind_object q ∅))).
Proof.
  intros Hdb Htotal.
  assert (shown_choices db q ≠ []) as Hne.
  { intros Hnil. rewrite question_total_shown_choices, Hnil in Htotal. simpl in Htotal.
    lia. }
  destruct (py_max_Ok (λ c, votes (c_fields c)) _ Hne) as (m & Hmax & _).
  exists m. split; [done|].
  unfold ResultsView.get_context_data.
  rewrite context_question_bind_object. cbn [mbind result_bind].
  rewrite py_or_0_Sum. fold (question_total db q).
  rewrite (for_each_Ok _
    (λ c, set_percentage c (spec_percentage (votes (c_fields c)) (question_total db q))))
    by (intros c Hc; apply attach_percentage_Ok; by eapply db_storable_choice_set).
  fold (shown_choices db q). cbn [mbind result_bind].
  rewrite !bool_decide_eq_true_2 by done. cbn [andb].
  by rewrite Hmax.
Qed.

(** X3.  In a database whose counters keep the sums of the storage in
    range: when two Choices share the largest counter, the results page
    names the first of them in the order the Choices are shown: every
    Choice shown before the most popular one has a strictly smaller
    counter, every one after it a counter that is not larger. *)
Theorem results_most_popular_is_first db now pk r :
  db_in_range db → Question_objects db !! pk = Some r → pub_date r ≤ now →
  0 < question_total db (question_of (pk, r)) →
  ∃ context question choices before c after,
    ResultsView.get db now pk = Ok (TemplateResponse "polls/results.html" context) ∧
    context !! "question" = Some (VQuestion question) ∧
    context !! "choices" = Some (VChoiceList choices) ∧
    most_popular_choice question = Attached (Some c) ∧
    choices = before ++ c :: after ∧
    (∀ c', c' ∈ before → votes (c_fields c') < votes (c_fields c)) ∧
    (∀ c', c' ∈ after → votes (c_fields c') ≤ votes (c_fields c)).
Proof.
  intros Hdb%db_in_range_0 Hr Hnow Htotal.
  destruct (ResultsView_get_context_data_max db _ Hdb Htotal) as (m & Hmax & Hctx).
  destruct (py_max_first _ _ _ Hmax) as (before & after & Heq & Hbefore & Hafter).
  eexists _, _, _, before, m, after. split.
  { unfold ResultsView.get, ResultsView.get_queryset.
    rewrite (get_object_published now _ pk r) by done. cbn [mbind result_bind].
    rewrite Hctx. reflexivity. }
  split; [rewrite lookup_insert_ne by done; apply bind_object_question|].
  split; [apply lookup_insert_eq|]. done.
Qed.

Lemma results_most_popular_is_first_witness :
  ∃ context question choices before c after,
    ResultsView.get two_polls_db 200 1
    = Ok (TemplateResponse "polls/results.html" context) ∧
    context !! "question" = Some (VQuestion question) ∧
    context !! "choices" = Some (VChoiceList choices) ∧
    most_popular_choice question = Attached (Some c) ∧
    choices = before ++ c :: after ∧
    (∀ c', c' ∈ before → votes (c_fields c') < votes (c_fields c)) ∧
    (∀ c', c' ∈ after → votes (c_fields c') ≤ votes (c_fields c)).
Proof.
  apply (results_most_popular_is_first two_polls_db 200 1 Q1).
  - vm_compute. reflexivity.
  - reflexivity.
  - simpl. lia.
  - vm_compute. reflexivity.
Defined.

(** ** Percentages at the ends of the range *)

Lemma SFdiv_core_binary_same p :
  SFdiv_core_binary prec emax (Z.pos p) 0 (Z.pos p) 0 = (2 ^ 53, - 53, loc_Exact).
Proof.
  unfold SFdiv_core_binary.
  replace (Zdigits2 (Z.pos p) + 0 - (Zdigits2 (Z.pos p) + 0)) with 0 by lia.
  change (Z.min (fexp prec emax 0) (0 - 0)) with (- 53).
  change (0 - 0 - - 53) with 53.
  cbv beta iota zeta.
  rewrite Z.shiftl_mul_pow2 by lia.
  pose proof (Z.div_mul (2 ^ 53) (Z.pos p) ltac:(lia)) as Hdiv.
  pose proof (Z.mod_mul (2 ^ 53) (Z.pos p) ltac:(lia)) as Hmod.
  rewrite (Z.mul_comm (2 ^ 53)) in Hdiv, Hmod.
  unfold Z.div, Z.modulo in Hdiv, Hmod.
  destruct (Z.div_eucl (Z.pos p * 2 ^ 53) (Z.pos p)) as [q r].
  subst q r. f_equal.
  unfold new_location. by destruct (Z.even (Z.pos p)).
Qed.

Lemma spec_percentage_all v :
  0 < v → spec_percentage v v = PyFloat (S754_finite false 7036874417766400 (-46)).
Proof.
  intros Hv. unfold spec_percentage. rewrite decide_True by done.
  destruct v as [|p|p]; [lia| |lia]. f_equal. simpl Z2SF. unfold SFdiv.
  rewrite SFdiv_core_binary_same. vm_compute. reflexivity.
Qed.

Lemma spec_percentage_none total :
  0 < total → spec_percentage 0 total = PyFloat (S754_zero false).
Proof.
  intros Ht. unfold spec_percentage. rewrite decide_True by done.
  destruct total as [|p|p]; [lia| |lia]. reflexivity.
Qed.

(** X4.  In a database whose counters keep the sums of the storage in
    range: on the results page of a published Question whose counters
    sum to a positive total, a Choice that holds the whole total is shown
    with exactly the float 100.0 (the binary64 number 7036874417766400 ×
    2^-46) and a Choice without votes with exactly the float +0.0: no
    rounding error at the two ends. *)
Theorem results_percentage_ends db now pk r :
  db_in_range db → Question_objects db !! pk = Some r → pub_date r ≤ now →
  0 < question_total db (question_of (pk, r)) →
  ∃ context choices,
    ResultsView.get db now pk = Ok (TemplateResponse "polls/results.html" context) ∧
    context !! "choices" = Some (VChoiceList choices) ∧
    ∀ c, c ∈ choices →
      (votes (c_fields c) = question_total db (question_of (pk, r)) →
       percentage c
       = Attached (PyFloat (S754_finite false 7036874417766400 (-46)))) ∧
      (votes (c_fields c) = 0 → percentage c = Attached (PyFloat (S754_zero false))).
Proof.
  intros Hdb%db_in_range_0 Hr Hnow Htotal.
  destruct (ResultsView_get_Ok db now pk r Hdb Hr Hnow) as (mp & Hget & _).
  eexists _, _. split; [exact Hget|]. split; [apply lookup_insert_eq|].
  intros c Hc. rewrite (shown_choices_percentage _ _ _ Hc). split.
  - intros ->. by rewrite spec_percentage_all.
  - intros ->. by rewrite spec_percentage_none.
Qed.

Lemma results_percentage_ends_witness :
  ∃ context choices,
    ResultsView.get (scenario_db 4 0) 200 1
    = Ok (TemplateResponse "polls/results.html" context) ∧
    context !! "choices" = Some (VChoiceList choices) ∧
    ∀ c, c ∈ choices →
      (votes (c_fields c) = question_total (scenario_db 4 0) (question_of (1, Q1)) →
       percentage c
       = Attached (PyFloat (S754_finite false 7036874417766400 (-46)))) ∧
      (votes (c_fields c) = 0 → percentage c = Attached (PyFloat (S754_zero false))).
Proof.
  apply (results_percentage_ends (scenario_db 4 0) 200 1 Q1).
  - vm_compute. reflexivity.
  - reflexivity.
  - simpl. lia.
  - vm_compute. reflexivity.
Defined.

(** ** Percentages are finite *)

Lemma binary_round_aux_bounded s m e l B :
  0 ≤ m → 0 ≤ B ≤ 971 → e ≤ B → Zdigits2 m + e ≤ B →
  match binary_round_aux prec emax s m e l with
  | S754_zero _ => True
  | S754_finite _ m' e' => Zdigits2 (Z.pos m') + e' ≤ B + 1 ∧ e' ≤ B
  | _ => False
  end.
Proof.
  intros Hm HB He Hx. unfold binary_round_aux.
  destruct (shr_fexp prec emax m e l) as [r1 e1] eqn:E1.
  apply shr_fexp_bounds in E1 as (Hr1 & -> & Hd1); [|done].
  pose proof (round_nearest_even_bounds (shr_m r1) (loc_of_shr_record r1)) as Hrne.
  set (m2 := round_nearest_even _ _) in *.
  pose proof (Zdigits2_succ (shr_m r1) m2 Hr1 ltac:(lia)) as Hd2.
  destruct (shr_fexp prec emax m2 _ loc_Exact) as [r2 e2] eqn:E2.
  apply shr_fexp_bounds in E2 as (Hr2 & -> & Hd3); [|lia].
  unfold fexp64, emax, prec in *.
  destruct (shr_m r2) as [|m'|m'] eqn:Em'; [done| |lia].
  rewrite (proj2 (Z.leb_le _ _)) by lia. lia.
Qed.

Lemma Zdigits2_mul a b :
  0 ≤ a → 0 ≤ b → Zdigits2 (a * b) ≤ Zdigits2 a + Zdigits2 b.
Proof.
  intros Ha Hb.
  pose proof (Zdigits2_gt a Ha). pose proof (Zdigits2_gt b Hb).
  pose proof (Zdigits2_nonneg a). pose proof (Zdigits2_nonneg b).
  apply Zdigits2_below; [nia|lia|]. rewrite Z.pow_add_r by lia. nia.
Qed.

Lemma SFdiv_Z2SF_bounded a b :
  b ≠ 0 → Z.abs a < 2 ^ 64 →
  match SFdiv prec emax (Z2SF a) (Z2SF b) with
  | S754_zero _ => True
  | S754_finite _ m e => Zdigits2 (Z.pos m) + e ≤ 65 ∧ e ≤ 64
  | _ => False
  end.
Proof.
  intros Hb Ha.
  destruct b as [|pb|pb]; [done|..]; destruct a as [|pa|pa]; try done; simpl Z2SF;
    unfold SFdiv;
    destruct (SFdiv_core_binary prec emax (Z.pos pa) 0 (Z.pos pb) 0) as [[q e] l] eqn:E;
    apply SFdiv_core_binary_bounds in E as (Hq & He & Hd);
    (assert (Zdigits2 (Z.pos pa) ≤ 64) by (apply Zdigits2_below; lia));
    apply (binary_round_aux_bounded _ q e l 64); lia.
Qed.

Lemma SFmul_100_finite x :
  match x with
  | S754_zero _ => True
  | S754_finite _ m e => Zdigits2 (Z.pos m) + e ≤ 65 ∧ e ≤ 64
  | _ => False
  end →
  is_finite_float (SFmul prec emax x (S754_finite false 7036874417766400 (-46))) = true.
Proof.
  destruct x as [s|s| |s m e]; [done|done|done|]. intros [Hm He]. unfold SFmul.
  pose proof (Zdigits2_mul (Z.pos m) 7036874417766400 ltac:(lia) ltac:(lia)) as Hdm.
  change (Zdigits2 7036874417766400) with 53 in Hdm.
  pose proof (binary_round_aux_bounded (xorb s false)
                (Z.pos (m * 7036874417766400)) (e + -46) loc_Exact 200) as Hmul.
  rewrite Pos2Z.inj_mul in Hmul.
  specialize (Hmul ltac:(lia) ltac:(lia) ltac:(lia) ltac:(lia)).
  by destruct (binary_round_aux _ _ _ _ _ _).
Qed.

Lemma spec_percentage_finite v total :
  Z.abs v < 2 ^ 64 → is_finite_number (spec_percentage v total) = true.
Proof.
  intros Hv. unfold spec_percentage. case_decide as Ht; [|done]. simpl.
  change (py_float 100) with (S754_finite false 7036874417766400 (-46)).
  apply SFmul_100_finite, SFdiv_Z2SF_bounded; [lia|done].
Qed.

(** X5.  In a database whose counters keep the sums of the storage in
    range, every percentage the results page of a published Question
    attaches is the integer 0 or a zero or finite float: never an
    infinity and never a NaN. *)
Theorem results_percentage_finite db now pk r :
  db_in_range db → Question_objects db !! pk = Some r → pub_date r ≤ now →
  ∃ context choices,
    ResultsView.get db now pk = Ok (TemplateResponse "polls/results.html" context) ∧
    context !! "choices" = Some (VChoiceList choices) ∧
    ∀ c, c ∈ choices →
      ∃ p, percentage c = Attached p ∧ is_finite_number p = true.
Proof.
  intros Hdb%db_in_range_0 Hr Hnow.
  destruct (ResultsView_get_Ok db now pk r Hdb Hr Hnow) as (mp & Hget & _).
  eexists _, _. split; [exact Hget|]. split; [apply lookup_insert_eq|].
  intros c Hc. eexists. split; [by apply shown_choices_percentage|].
  apply spec_percentage_finite.
  assert (Choice_objects db !! c_pk c = Some (c_fields c)) as Hrow
    by (eapply shown_choices_rows; by exists c).
  apply Hdb in Hrow. simpl in Hrow.
  assert (2 ^ 63 < 2 ^ 64) by (apply Z.pow_lt_mono_r; lia). lia.
Qed.

Lemma results_percentage_finite_witness :
  ∃ context choices,
    ResultsView.get (scenario_db 1 2) 200 1
    = Ok (TemplateResponse "polls/results.html" context) ∧
    context !! "choices" = Some (VChoiceList choices) ∧
    ∀ c, c ∈ choices →
      ∃ p, percentage c = Attached p ∧ is_finite_number p = true.
Proof.
  apply (results_percentage_finite (scenario_db 1 2) 200 1 Q1).
  - vm_compute. reflexivity.
  - reflexivity.
  - simpl. lia.
Defined.

(** ** Sequences of votes *)

Lemma alter_voted (m : gmap Z ChoiceRow) cid row :
  m !! cid = Some row → alter voted cid m = <[cid := voted row]> m.
Proof.
  intros Hrow. apply map_eq. intros k. rewrite lookup_alter, lookup_insert.
  case_decide; [subst; by rewrite Hrow|done].
Qed.

Lemma vote_storage db qid POST :
  (vote db qid POST).2
  = match selected_key db qid POST with
    | Some cid => count_vote cid db
    | None => db
    end.
Proof.
  unfold selected_key.
  destruct (vote_spec db qid POST) as [Hq|q Hq Hraw|q raw Hq Hraw Hint
    |q raw cid Hq Hraw Hint Hnone|q raw cid row Hq Hraw Hint Hrow Hfk]; simpl.
  - by rewrite Hq.
  - by rewrite Hq, Hraw.
  - by rewrite Hq, Hraw, Hint.
  - rewrite Hq, Hraw, Hint. destruct (Choice_objects db !! cid) as [row|] eqn:Hrow; [|done].
    by rewrite decide_False by (by apply Hnone).
  - rewrite Hq, Hraw, Hint, Hrow, decide_True by done.
    unfold count_vote. by rewrite (alter_voted _ cid row).
Qed.

Lemma count_vote_question_id cid db k :
  question_id <$> Choice_objects (count_vote cid db) !! k
  = question_id <$> Choice_objects db !! k.
Proof.
  unfold count_vote. simpl. rewrite lookup_alter. case_decide; [|done].
  subst. by destruct (Choice_objects db !! k).
Qed.

Lemma selected_key_ext db1 db2 qid POST :
  Question_objects db1 = Question_objects db2 →
  (∀ k, question_id <$> Choice_objects db1 !! k = question_id <$> Choice_objects db2 !! k) →
  selected_key db1 qid POST = selected_key db2 qid POST.
Proof.
  intros Hq Hc. unfold selected_key. rewrite Hq.
  destruct (Question_objects db2 !! qid); [|done].
  destruct (POST !! "choice") as [raw|]; [|done].
  destruct (py_int raw) as [cid|]; [|done].
  specialize (Hc cid).
  destruct (Choice_objects db1 !! cid) as [r1|], (Choice_objects db2 !! cid) as [r2|];
    simpl in Hc; try done.
  injection Hc as ->. done.
Qed.

Lemma selected_key_count_vote cid db qid POST :
  selected_key (count_vote cid db) qid POST = selected_key db qid POST.
Proof. apply selected_key_ext; [done|]. intros k. apply count_vote_question_id. Qed.

Lemma count_vote_comm c1 c2 db :
  count_vote c1 (count_vote c2 db) = count_vote c2 (count_vote c1 db).
Proof.
  unfold count_vote. simpl. f_equal. apply map_eq. intros k.
  destruct (decide (c1 = k)) as [->|H1]; destruct (decide (c2 = k)) as [->|H2];
    repeat first [rewrite lookup_alter_eq | rewrite lookup_alter_ne by done]; done.
Qed.

Lemma vote_vote_comm db q1 P1 q2 P2 :
  (vote (vote db q1 P1).2 q2 P2).2 = (vote (vote db q2 P2).2 q1 P1).2.
Proof.
  rewrite !vote_storage.
  destruct (selected_key db q1 P1) as [c1|] eqn:E1;
    destruct (selected_key db q2 P2) as [c2|] eqn:E2;
    rewrite ?selected_key_count_vote, ?E1, ?E2; try done.
  apply count_vote_comm.
Qed.

(** X6.  Whatever the requests are, the storage left by a sequence of
    votes does not depend on the order in which they are handled. *)
Theorem vote_all_any_order requests requests' db :
  requests ≡ₚ requests' → vote_all requests db = vote_all requests' db.
Proof.
  intros Hperm. revert db.
  induction Hperm as [|x l l' _ IH|x y l|l l' l'' _ IH1 _ IH2]; intros db; simpl.
  - done.
  - apply IH.
  - by rewrite vote_vote_comm.
  - by rewrite IH1.
Qed.

Lemma vote_all_any_order_witness :
  vote_all [(1, {["choice" := "11"%string]}); (2, {["choice" := "21"%string]});
            (1, {["choice" := "abc"%string]})] two_polls_db
  = vote_all [(1, {["choice" := "abc"%string]}); (1, {["choice" := "11"%string]});
              (2, {["choice" := "21"%string]})] two_polls_db.
Proof.
  apply (vote_all_any_order
           [(1, {["choice" := "11"%string]}); (2, {["choice" := "21"%string]});
            (1, {["choice" := "abc"%string]})]
           [(1, {["choice" := "abc"%string]}); (1, {["choice" := "11"%string]});
            (2, {["choice" := "21"%string]})]).
  change [(1, {["choice" := "11"%string]}); (2, {["choice" := "21"%string]});
          (1, {["choice" := "abc"%string]})]
    with ([(1, {["choice" := "11"%string]}); (2, {["choice" := "21"%string]})]
          ++ [(1, ({["choice" := "abc"%string]} : gmap string string))]).
  apply Permutation_app_comm.
Defined.

Lemma vote_response_ext db1 db2 qid POST :
  Question_objects db1 = Question_objects db2 →
  (∀ k, question_id <$> Choice_objects db1 !! k = question_id <$> Choice_objects db2 !! k) →
  (vote db1 qid POST).1 = (vote db2 qid POST).1.
Proof.
  intros Hq Hc.
  assert (∀ cid row, Choice_objects db1 !! cid = Some row → question_id row = qid →
            ∃ row', Choice_objects db2 !! cid = Some row' ∧ question_id row' = qid) as H12.
  { intros cid row Hrow Hfk. specialize (Hc cid). rewrite Hrow in Hc. simpl in Hc.
    destruct (Choice_objects db2 !! cid) as [row'|]; [|done].
    exists row'. split; [done|]. simpl in Hc. congruence. }
  assert (∀ cid row, Choice_objects db2 !! cid = Some row → question_id row = qid →
            ∃ row', Choice_objects db1 !! cid = Some row' ∧ question_id row' = qid) as H21.
  { intros cid row Hrow Hfk. specialize (Hc cid). rewrite Hrow in Hc. simpl in Hc.
    destruct (Choice_objects db1 !! cid) as [row'|]; [|done].
    exists row'. split; [done|]. simpl in Hc. congruence. }
  destruct (vote_spec db1 qid POST) as [Hq1|q1 Hq1 Hraw1|q1 raw1 Hq1 Hraw1 Hint1
    |q1 raw1 cid1 Hq1 Hraw1 Hint1 Hnone1|q1 raw1 cid1 row1 Hq1 Hraw1 Hint1 Hrow1 Hfk1];
  destruct (vote_spec db2 qid POST) as [Hq2|q2 Hq2 Hraw2|q2 raw2 Hq2 Hraw2 Hint2
    |q2 raw2 cid2 Hq2 Hraw2 Hint2 Hnone2|q2 raw2 cid2 row2 Hq2 Hraw2 Hint2 Hrow2 Hfk2];
  simpl; rewrite Hq in *; try congruence.
  - assert (cid2 = cid1) as -> by congruence.
    destruct (H21 cid1 row2 Hrow2 Hfk2) as (row' & Hrow' & Hfk'). by destruct (Hnone1 row').
  - assert (cid2 = cid1) as -> by congruence.
    destruct (H12 cid1 row1 Hrow1 Hfk1) as (row' & Hrow' & Hfk'). by destruct (Hnone2 row').
Qed.

Lemma vote_all_keeps requests : ∀ db,
  Question_objects (vote_all requests db) = Question_objects db ∧
  ∀ k, question_id <$> Choice_objects (vote_all requests db) !! k
       = question_id <$> Choice_objects db !! k.
Proof.
  induction requests as [|[qid POST] requests IH]; intros db; simpl; [done|].
  destruct (IH (vote db qid POST).2) as [Hq Hc]. rewrite Hq. setoid_rewrite Hc.
  rewrite vote_storage. destruct (selected_key db qid POST) as [cid|]; [|done].
  split; [done|]. intros k. apply count_vote_question_id.
Qed.

(** X7.  The response to a vote request -- not found, the form with the
    error message, the uncaught [ValueError] or the redirect -- is the
    same after any sequence of earlier vote requests as without them. *)
Theorem vote_response_after_votes requests db qid POST :
  (vote (vote_all requests db) qid POST).1 = (vote db qid POST).1.
Proof.
  destruct (vote_all_keeps requests db) as [Hq Hc].
  by apply vote_response_ext.
Qed.

Lemma votes_for_cons db k request requests :
  votes_for db k (request :: requests)
  = (if decide (selected_key db request.1 request.2 = Some k) then 1 else 0)
    + votes_for db k requests.
Proof.
  unfold votes_for. rewrite filter_cons. case_decide; simpl length; lia.
Qed.

Lemma votes_for_ext db1 db2 k requests :
  (∀ qid POST, selected_key db1 qid POST = selected_key db2 qid POST) →
  votes_for db1 k requests = votes_for db2 k requests.
Proof.
  intros Hext. unfold votes_for. do 2 f_equal.
  apply list_filter_iff. intros [qid POST]. simpl. by rewrite Hext.
Qed.

Lemma selected_key_vote db qid POST qid' POST' :
  selected_key (vote db qid POST).2 qid' POST' = selected_key db qid' POST'.
Proof.
  rewrite vote_storage. destruct (selected_key db qid POST); [|done].
  apply selected_key_count_vote.
Qed.

Lemma vote_all_lookup requests : ∀ db k,
  Choice_objects (vote_all requests db) !! k
  = (λ row, {| question_id := question_id row;
               choice_text := choice_text row;
               votes := votes row + votes_for db k requests |})
      <$> Choice_objects db !! k.
Proof.
  induction requests as [|[qid POST] requests IH]; intros db k.
  - simpl. destruct (Choice_objects db !! k) as [[]|]; simpl; [|done].
    unfold votes_for. simpl. by rewrite Z.add_0_r.
  - simpl vote_all. rewrite IH, votes_for_cons. simpl fst. simpl snd.
    rewrite (votes_for_ext (vote db qid POST).2 db)
      by (intros; apply selected_key_vote).
    rewrite vote_storage.
    destruct (selected_key db qid POST) as [cid|] eqn:Hsel.
    + unfold count_vote. simpl. rewrite lookup_alter.
      destruct (decide (cid = k)) as [->|Hne].
      * rewrite decide_True by done.
        destruct (Choice_objects db !! k) as [row|]; simpl; [|done].
        do 2 f_equal. lia.
      * rewrite decide_False by congruence. by rewrite Z.add_0_l.
    + rewrite decide_False by done. by rewrite Z.add_0_l.
Qed.

(** X8.  For requests whose choice fields are strings of printable
    ASCII characters, and counters that keep the sums of the storage in range
    with room for as many votes as there are requests: after the sequence
    of vote requests every Choice is still there with its text and its
    Question, and its counter has grown by exactly the number of requests
    of the sequence that select it: no vote is lost, none is counted
    twice, no counter goes down. *)
Theorem vote_all_tally requests db k row :
  forallb plain_request requests = true →
  db_in_range_for (Z.of_nat (length requests)) db →
  Choice_objects db !! k = Some row →
  Choice_objects (vote_all requests db) !! k
  = Some {| question_id := question_id row;
            choice_text := choice_text row;
            votes := votes row + votes_for db k requests |}
  ∧ 0 ≤ votes_for db k requests ≤ Z.of_nat (length requests).
Proof.
  intros _ _ Hrow. split; [by rewrite vote_all_lookup, Hrow|].
  unfold votes_for.
  pose proof (length_filter (λ request, selected_key db request.1 request.2 = Some k)
                requests). lia.
Qed.

Lemma vote_all_tally_witness :
  Choice_objects
    (vote_all [(1, {["choice" := "11"%string]}); (1, {["choice" := "x"%string]});
               (2, {["choice" := "11"%string]}); (1, {["choice" := " 11 "%string]})]
       two_polls_db) !! 11
  = Some {| question_id := 1; choice_text := "Yes";
            votes := 2 + votes_for two_polls_db 11
                           [(1, {["choice" := "11"%string]});
                            (1, {["choice" := "x"%string]});
                            (2, {["choice" := "11"%string]});
                            (1, {["choice" := " 11 "%string]})] |}
  ∧ 0 ≤ votes_for two_polls_db 11
          [(1, {["choice" := "11"%string]}); (1, {["choice" := "x"%string]});
           (2, {["choice" := "11"%string]}); (1, {["choice" := " 11 "%string]})]
      ≤ Z.of_nat 4.
Proof.
  apply (vote_all_tally
           [(1, {["choice" := "11"%string]}); (1, {["choice" := "x"%string]});
            (2, {["choice" := "11"%string]}); (1, {["choice" := " 11 "%string]})]
           two_polls_db 11 {| question_id := 1; choice_text := "Yes"; votes := 2 |});
    reflexivity.
Defined.

Example votes_for_example :
  votes_for two_polls_db 11
    [(1, {["choice" := "11"%string]}); (1, {["choice" := "x"%string]});
     (2, {["choice" := "11"%string]}); (1, {["choice" := " 11 "%string]})] = 2.
Proof. vm_compute. reflexivity. Qed.

Lemma selected_key_Some db qid POST cid :
  selected_key db qid POST = Some cid ↔
  ∃ q raw row,
    Question_objects db !! qid = Some q ∧
    POST !! "choice" = Some raw ∧ py_int raw = Some cid ∧
    Choice_objects db !! cid = Some row ∧ question_id row = qid.
Proof.
  unfold selected_key. split.
  - destruct (Question_objects db !! qid) as [q|]; [|done].
    destruct (POST !! "choice") as [raw|]; [|done].
    destruct (py_int raw) as [cid'|] eqn:Hint; [|done].
    destruct (Choice_objects db !! cid') as [row|] eqn:Hrow; [|done].
    case_decide; [|done]. intros [= ->]. by exists q, raw, row.
  - intros (q & raw & row & -> & -> & -> & -> & Hfk). by rewrite decide_True.
Qed.

(** X9.  Votes keep the storage consistent: when every Choice refers to
    a Question of the storage and no counter is negative, the same holds
    after any sequence of vote requests. *)
Theorem vote_all_consistent requests db :
  db_consistent db → db_consistent (vote_all requests db).
Proof.
  intros Hdb k row'. rewrite vote_all_lookup.
  destruct (Choice_objects db !! k) as [row|] eqn:Hrow; [|done].
  simpl. intros [= <-]. simpl.
  destruct (Hdb k row Hrow) as [Hq Hvotes].
  rewrite (proj1 (vote_all_keeps requests db)). split; [done|].
  unfold votes_for. lia.
Qed.

Lemma two_polls_db_consistent : db_consistent two_polls_db.
Proof.
  intros k row. unfold two_polls_db. simpl. intros H.
  apply lookup_insert_Some in H as [[_ <-]|[_ H]];
    [|apply lookup_insert_Some in H as [[_ <-]|[_ H]];
      [|apply lookup_singleton_Some in H as [_ <-]]];
    (split; [by eexists|simpl; lia]).
Defined.

Lemma vote_all_consistent_witness :
  db_consistent
    (vote_all [(1, {["choice" := "11"%string]}); (2, {["choice" := "21"%string]})]
       two_polls_db).
Proof.
  apply (vote_all_consistent
           [(1, {["choice" := "11"%string]}); (2, {["choice" := "21"%string]})]
           two_polls_db).
  apply two_polls_db_consistent.
Defined.

(** ** Two requests at once *)

(** X10.  Two requests for the same Choice (the choice identifiers
    strings of printable ASCII characters, the counter with room for two more votes
    in its 64-bit column) that both read the storage before either
    writes: both are answered with the redirect, the counter ends two
    higher, and the storage is the one left by handling the two requests
    one after the other. *)
Theorem votes_interleaved db qid POST1 POST2 q raw1 raw2 cid row :
  Question_objects db !! qid = Some q →
  POST1 !! "choice" = Some raw1 → plain_ascii raw1 = true → py_int raw1 = Some cid →
  POST2 !! "choice" = Some raw2 → plain_ascii raw2 = true → py_int raw2 = Some cid →
  Choice_objects db !! cid = Some row → question_id row = qid →
  - 2 ^ 63 ≤ votes row ∧ votes row + 2 < 2 ^ 63 →
  ∃ selected1 selected2,
    vote_try db (question_of (qid, q)) POST1 = Ok selected1 ∧
    vote_try db (question_of (qid, q)) POST2 = Ok selected2 ∧
    let first := vote_else db qid selected1 in
    let second := vote_else first.2 qid selected2 in
    first.1 = Ok (HttpResponseRedirect (reverse_url "polls:results" [qid])) ∧
    second.1 = Ok (HttpResponseRedirect (reverse_url "polls:results" [qid])) ∧
    votes <$> Choice_objects second.2 !! cid = Some (votes row + 2) ∧
    second.2 = (vote (vote db qid POST1).2 qid POST2).2.
Proof.
  intros Hq Hraw1 _ Hint1 Hraw2 _ Hint2 Hrow Hfk _.
  exists (choice_of (cid, row)), (choice_of (cid, row)).
  split; [by eapply vote_try_Ok|]. split; [by eapply vote_try_Ok|].
  rewrite (vote_else_stored db qid _ row) by done. simpl.
  rewrite (vote_else_stored _ qid (choice_of (cid, row)) (voted row))
    by (simpl; apply lookup_insert_eq).
  simpl. split; [done|]. split; [done|].
  split; [rewrite lookup_insert_eq; simpl; f_equal; lia|].
  rewrite (vote_counted_eq db qid POST1 q raw1 cid row) by done. simpl.
  erewrite vote_counted_eq; [|done|done|done|simpl; apply lookup_insert_eq|done].
  simpl. done.
Qed.

Lemma votes_interleaved_witness :
  ∃ selected1 selected2,
    vote_try (scenario_db 5 0) (question_of (1, Q1)) {["choice" := "11"%string]}
    = Ok selected1 ∧
    vote_try (scenario_db 5 0) (question_of (1, Q1)) {["choice" := "+11"%string]}
    = Ok selected2 ∧
    let first := vote_else (scenario_db 5 0) 1 selected1 in
    let second := vote_else first.2 1 selected2 in
    first.1 = Ok (HttpResponseRedirect (reverse_url "polls:results" [1])) ∧
    second.1 = Ok (HttpResponseRedirect (reverse_url "polls:results" [1])) ∧
    votes <$> Choice_objects second.2 !! 11 = Some (5 + 2) ∧
    second.2
    = (vote (vote (scenario_db 5 0) 1 {["choice" := "11"%string]}).2 1
         {["choice" := "+11"%string]}).2.
Proof.
  apply (votes_interleaved (scenario_db 5 0) 1 {["choice" := "11"%string]}
           {["choice" := "+11"%string]} Q1 "11" "+11" 11
           {| question_id := 1; choice_text := "Yes"; votes := 5 |});
    try reflexivity.
  simpl. lia.
Defined.

(** ** The form redisplayed by [vote] and the detail page *)



(** ** The totals of the listing *)

Lemma votes_of_filter_split (P : Z * ChoiceRow → Prop) `{!∀ x, Decision (P x)}
    (m : gmap Z ChoiceRow) :
  foldr Z.add 0 (votes_of m)
  = foldr Z.add 0 (votes_of (filter P m))
    + foldr Z.add 0 (votes_of (filter (λ x, ¬ P x) m)).
Proof.
  induction m as [|k row m Hk IH] using map_ind.
  - by rewrite !map_filter_empty, votes_of_empty.
  - rewrite votes_of_insert_fresh by done.
    destruct (decide (P (k, row))) as [HP|HP].
    + rewrite (map_filter_insert_True P) by done.
      rewrite (map_filter_insert_not' (λ x, ¬ P x)); [|by intros HnP; apply HnP|].
      * rewrite votes_of_insert_fresh by (rewrite map_lookup_filter_None; by left).
        lia.
      * intros y Hy. congruence.
    + rewrite (map_filter_insert_True (λ x, ¬ P x)) by done.
      rewrite (map_filter_insert_not' P); [|done|].
      * rewrite votes_of_insert_fresh by (rewrite map_lookup_filter_None; by left).
        lia.
      * intros y Hy. congruence.
Qed.

Lemma sum_totals_le (pks : list Z) : ∀ m : gmap Z ChoiceRow,
  NoDup pks → map_Forall (λ _ row, 0 ≤ votes row) m →
  foldr Z.add 0
    ((λ pk, foldr Z.add 0 (votes_of (filter (λ kr, question_id kr.2 = pk) m))) <$> pks)
  ≤ foldr Z.add 0 (votes_of m).
Proof.
  induction pks as [|pk pks IH]; intros m Hnd Hm.
  - simpl. by apply votes_of_nonneg.
  - apply NoDup_cons in Hnd as [Hpk Hnd]. csimpl.
    rewrite (votes_of_filter_split (λ kr, question_id kr.2 = pk) m).
    set (rest := filter (λ kr, ¬ question_id kr.2 = pk) m).
    assert (map_Forall (λ _ row, 0 ≤ votes row) rest) as Hrest.
    { intros k row [Hrow _]%map_lookup_filter_Some. by eapply Hm. }
    specialize (IH rest Hnd Hrest).
    replace ((λ pk0, foldr Z.add 0
                (votes_of (filter (λ kr, question_id kr.2 = pk0) m))) <$> pks)
      with ((λ pk0, foldr Z.add 0
                (votes_of (filter (λ kr, question_id kr.2 = pk0) rest))) <$> pks);
      [lia|].
    apply list_fmap_ext. intros i pk' Hi. do 2 f_equal. subst rest.
    rewrite map_filter_filter. apply map_filter_ext. intros k row Hrow. simpl.
    split; [by intros [? _]|]. intros Hfk. split; [done|]. intros Heq.
    apply Hpk. rewrite <-Heq, Hfk. eapply list_elem_of_lookup_2. exact Hi.
Qed.

(** X12.  When no counter is negative and the counters keep the sums of
    the storage in range, the totals the listing attaches to the
    Questions it shows add up to no more than the system-wide total it
    shows beside them, and none of them is negative. *)
Theorem index_totals_add_up db now :
  (∀ k row, Choice_objects db !! k = Some row → 0 ≤ votes row) →
  db_in_range db →
  ∃ context latest T,
    IndexView.get db now = Ok (TemplateResponse "polls/index.html" context) ∧
    context !! "latest_question_list" = Some (VQuestionList latest) ∧
    context !! "total_votes" = Some (VInt T) ∧
    foldr Z.add 0 (attached_total <$> latest) ≤ T ∧
    ∀ q, q ∈ latest → 0 ≤ attached_total q.
Proof.
  intros Hdb _. eexists _, (listed db now), _.
  split; [apply IndexView_get_Ok|].
  split; [by eapply IndexView_latest_question_list, IndexView_get_Ok|].
  split; [apply lookup_insert_eq|]. split.
  - replace (attached_total <$> listed db now)
      with ((λ pk, foldr Z.add 0
               (votes_of (filter (λ kr, question_id kr.2 = pk) (Choice_objects db))))
              <$> (q_pk <$> IndexView.get_queryset db now)).
    + apply sum_totals_le; [apply get_queryset_NoDup|done].
    + unfold listed. by rewrite <-!list_fmap_compose.
  - intros q (q0 & _ & _ & _ & Ht)%elem_of_listed. unfold attached_total.
    rewrite Ht. by apply question_total_nonneg.
Qed.

Lemma index_totals_add_up_witness :
  ∃ context latest T,
    IndexView.get two_polls_db 120 = Ok (TemplateResponse "polls/index.html" context) ∧
    context !! "latest_question_list" = Some (VQuestionList latest) ∧
    context !! "total_votes" = Some (VInt T) ∧
    foldr Z.add 0 (attached_total <$> latest) ≤ T ∧
    ∀ q, q ∈ latest → 0 ≤ attached_total q.
Proof.
  apply (index_totals_add_up two_polls_db 120).
  - intros k row Hrow. apply (two_polls_db_consistent k row Hrow).
  - vm_compute. reflexivity.
Defined.

Example index_totals_example :
  ∃ context latest,
    IndexView.get two_polls_db 120 = Ok (TemplateResponse "polls/index.html" context) ∧
    context !! "latest_question_list" = Some (VQuestionList latest) ∧
    attached_total <$> latest = [4] ∧
    context !! "total_votes" = Some (VInt 9) ∧
    context !! "total_polls" = Some (VInt 2).
Proof. eexists _, _. repeat split; vm_compute; reflexivity. Qed.

(** ** Counters that sum to nothing *)

Lemma spec_percentage_nonpositive v total :
  total ≤ 0 → spec_percentage v total = PyInt 0.
Proof. intros Ht. unfold spec_percentage. by rewrite decide_False by lia. Qed.

Lemma ResultsView_get_context_data_nonpositive db q :
  question_total db q ≤ 0 →
  ResultsView.get_context_data db q
  = Ok (<["choices" := VChoiceList (shown_choices db q)]>
          (bind_object
             (set_most_popular_choice (set_total_votes q (question_total db q)) None)
             (bind_object q ∅))).
Proof.
  intros Htotal. unfold ResultsView.get_context_data.
  rewrite context_question_bind_object. cbn [mbind result_bind].
  rewrite py_or_0_Sum. fold (question_total db q).
  rewrite (for_each_Ok _
    (λ c, set_percentage c (spec_percentage (votes (c_fields c)) (question_total db q)))).
  - fold (shown_choices db q). cbn [mbind result_bind].
    by rewrite bool_decide_eq_false_2 by lia.
  - intros c _. unfold ResultsView.attach_percentage.
    rewrite decide_False by lia. by rewrite spec_percentage_nonpositive.
Qed.

(** X13.  In a database whose counters keep the sums of the storage in
    range: when the counters of a published Question sum to 0 or less
    (which takes a negative counter unless all are 0), the results page
    is still rendered, every Choice gets the integer 0 as percentage and
    there is no most popular choice, even if some Choice has votes. *)
Theorem results_without_positive_total db now pk r :
  db_in_range db →
  Question_objects db !! pk = Some r → pub_date r ≤ now →
  question_total db (question_of (pk, r)) ≤ 0 →
  ∃ context question choices,
    ResultsView.get db now pk = Ok (TemplateResponse "polls/results.html" context) ∧
    context !! "question" = Some (VQuestion question) ∧
    context !! "choices" = Some (VChoiceList choices) ∧
    total_votes question = Attached (question_total db (question_of (pk, r))) ∧
    most_popular_choice question = Attached None ∧
    (∀ k row, (∃ c, c ∈ choices ∧ c_pk c = k ∧ c_fields c = row) ↔
              Choice_objects db !! k = Some row ∧ question_id row = pk) ∧
    ∀ c, c ∈ choices → percentage c = Attached (PyInt 0).
Proof.
  intros _ Hr Hnow Htotal. eexists _, _, (shown_choices db (question_of (pk, r))).
  split.
  { unfold ResultsView.get, ResultsView.get_queryset.
    rewrite (get_object_published now _ pk r) by done. cbn [mbind result_bind].
    rewrite ResultsView_get_context_data_nonpositive by done. reflexivity. }
  split; [rewrite lookup_insert_ne by done; apply bind_object_question|].
  split; [apply lookup_insert_eq|]. split; [done|]. split; [done|].
  split; [intros k row; apply shown_choices_rows|].
  intros c Hc. rewrite (shown_choices_percentage _ _ _ Hc).
  by rewrite spec_percentage_nonpositive.
Qed.

Lemma results_without_positive_total_witness :
  ∃ context question choices,
    ResultsView.get (scenario_db 5 (-5)) 200 1
    = Ok (TemplateResponse "polls/results.html" context) ∧
    context !! "question" = Some (VQuestion question) ∧
    context !! "choices" = Some (VChoiceList choices) ∧
    total_votes question
    = Attached (question_total (scenario_db 5 (-5)) (question_of (1, Q1))) ∧
    most_popular_choice question = Attached None ∧
    (∀ k row, (∃ c, c ∈ choices ∧ c_pk c = k ∧ c_fields c = row) ↔
              Choice_objects (scenario_db 5 (-5)) !! k = Some row ∧ question_id row = 1) ∧
    ∀ c, c ∈ choices → percentage c = Attached (PyInt 0).
Proof.
  apply (results_without_positive_total (scenario_db 5 (-5)) 200 1 Q1).
  - vm_compute. reflexivity.
  - reflexivity.
  - simpl. lia.
  - vm_compute. discriminate.
Defined.

(** [int] strips the six ASCII whitespace characters and no other control
    character. *)
Example py_int_whitespace :
  py_int (String (ascii_of_nat 9) "11") = Some 11 ∧
  py_int (String (ascii_of_nat 13) "11") = Some 11 ∧
  py_int (String (ascii_of_nat 31) "11") = None ∧
  py_int (String (ascii_of_nat 28) "11") = None ∧
  plain_ascii (String (ascii_of_nat 31) "11") = false ∧
  plain_ascii " 11 " = true.
Proof. repeat split; vm_compute; reflexivity. Qed.
